(** * yaya-frontend: pagination, search and fetch logic of the transaction dashboard

    A shallow embedding of the logic of
    [src/components/TransactionDashboard.tsx] and [src/hooks/useTransactions.ts]:
    the page window of the [Pagination] component, the page-change, mount and
    search handlers of [TransactionDashboard], the request construction and
    error branch of [fetchTransactions], the [useDebounce] hook and the
    classification function [isIncomingTransaction].

    Conventions.
    - A JavaScript string is the list of its UTF-16 code units.
    - A JavaScript number that the client computes with is either [NaN] or an
      integer ([Num z]); integers are exact (the model does not round above
      2^53) and [-0] is identified with [0].
    - React state is passed explicitly: every [setX] call is applied to the
      state in program order, an event handler or effect is a function
      [State -> State], and the asynchronous [fetchTransactions] is split at
      its [await] into the part that issues the request and the part that
      runs when the request settles.
    - The browser appears as the decoded query parameters of
      [window.location] and the list of calls made to [fetch]; console output
      is left out. *)

From Stdlib Require Import ZArith NArith List Bool String Ascii Lia DecimalString.
From Stdlib Require DecimalPos.
Import ListNotations.
Open Scope Z_scope.

(** ** JavaScript strings, numbers and URL parameters *)

Module JS.

Definition code_unit := N.
Definition jsstring := list code_unit.

(** A string literal of the source (ASCII text). *)
Definition lit (s : string) : jsstring :=
  map N_of_ascii (list_ascii_of_string s).

(** [a === b] on strings. *)
Fixpoint streq (a b : jsstring) : bool :=
  match a, b with
  | [], [] => true
  | x :: a', y :: b' => N.eqb x y && streq a' b'
  | _, _ => false
  end.

(** Truthiness of a string: every string but the empty one. *)
Definition truthy (s : jsstring) : bool :=
  match s with
  | [] => false
  | _ :: _ => true
  end.

(** WhiteSpace and LineTerminator code units of ECMAScript: TAB, LF, VT, FF,
    CR, SP, NBSP, U+1680, U+2000..U+200A, U+2028, U+2029, U+202F, U+205F,
    U+3000 and U+FEFF. *)
Definition isWhiteSpace (c : code_unit) : bool :=
  (existsb (N.eqb c)
     [9; 10; 11; 12; 13; 32; 160; 5760; 8232; 8233; 8239; 8287; 12288; 65279]
   || ((8192 <=? c) && (c <=? 8202)))%N.

Fixpoint trimStart (s : jsstring) : jsstring :=
  match s with
  | [] => []
  | c :: r => if isWhiteSpace c then trimStart r else s
  end.

Definition trimEnd (s : jsstring) : jsstring := rev (trimStart (rev s)).

(** [String.prototype.trim]. *)
Definition trim (s : jsstring) : jsstring := trimEnd (trimStart s).

Inductive number :=
| NaN
| Num (z : Z).

(** [a < b] and [a > b]: false as soon as one side is [NaN]. *)
Definition lt (a b : number) : bool :=
  match a, b with
  | Num x, Num y => x <? y
  | _, _ => false
  end.

Definition gt (a b : number) : bool := lt b a.

(** [a + k] and [a - k] for an integer literal [k]: [NaN] stays [NaN]. *)
Definition plus (a : number) (k : Z) : number :=
  match a with
  | NaN => NaN
  | Num x => Num (x + k)
  end.

(** [Number.prototype.toString], also what a template literal inserts. *)
Definition toString (n : number) : jsstring :=
  match n with
  | NaN => lit "NaN"
  | Num z => lit (NilZero.string_of_int (Z.to_int z))
  end.

Definition isDigit (c : code_unit) : bool := ((48 <=? c) && (c <=? 57))%N.

Fixpoint leadingDigits (s : jsstring) : jsstring :=
  match s with
  | [] => []
  | c :: r => if isDigit c then c :: leadingDigits r else []
  end.

Definition digitsValue (ds : jsstring) : Z :=
  fold_left (fun acc c => acc * 10 + Z.of_N (c - 48)) ds 0.

(** [parseInt(s, 10)]: skip leading white space, read an optional sign, then
    the longest prefix of decimal digits; no digit gives [NaN]. The result is
    the exact integer; JavaScript gives the same number as long as it is at
    most 2^53 in absolute value, and the nearest double beyond. *)
Definition parseInt (s : jsstring) : number :=
  let inputString := trimStart s in
  let '(sign, rest) :=
    match inputString with
    | 45%N :: r => (-1, r)
    | 43%N :: r => (1, r)
    | _ => (1, inputString)
    end in
  match leadingDigits rest with
  | [] => NaN
  | ds => Num (sign * digitsValue ds)
  end.

(** [URLSearchParams]: the decoded name/value pairs of the query string, in
    order. *)
Definition URLSearchParams := list (jsstring * jsstring).

Fixpoint get (name : jsstring) (ps : URLSearchParams) : option jsstring :=
  match ps with
  | [] => None
  | (k, v) :: r => if streq k name then Some v else get name r
  end.

Definition remove (name : jsstring) (ps : URLSearchParams) : URLSearchParams :=
  filter (fun kv => negb (streq (fst kv) name)) ps.

(** [set]: the first pair called [name] gets the value and the others are
    removed; without such a pair, one is appended. *)
Fixpoint set (name value : jsstring) (ps : URLSearchParams) : URLSearchParams :=
  match ps with
  | [] => [(name, value)]
  | (k, v) :: r =>
      if streq k name then (k, value) :: remove name r
      else (k, v) :: set name value r
  end.

(** [a <= b] and [a >= b]: false as soon as one side is [NaN]. *)
Definition le (a b : number) : bool :=
  match a, b with
  | Num x, Num y => x <=? y
  | _, _ => false
  end.

Definition ge (a b : number) : bool := le b a.

(** The digits of a decimal numeral, as code units. *)
Definition digitsOf (d : Decimal.uint) : jsstring :=
  lit (NilEmpty.string_of_uint d).

(** The value of a decimal numeral read after the digits counted in [acc]. *)
Fixpoint uintValue (d : Decimal.uint) (acc : Z) : Z :=
  match d with
  | Decimal.Nil => acc
  | Decimal.D0 d => uintValue d (acc * 10 + 0)
  | Decimal.D1 d => uintValue d (acc * 10 + 1)
  | Decimal.D2 d => uintValue d (acc * 10 + 2)
  | Decimal.D3 d => uintValue d (acc * 10 + 3)
  | Decimal.D4 d => uintValue d (acc * 10 + 4)
  | Decimal.D5 d => uintValue d (acc * 10 + 5)
  | Decimal.D6 d => uintValue d (acc * 10 + 6)
  | Decimal.D7 d => uintValue d (acc * 10 + 7)
  | Decimal.D8 d => uintValue d (acc * 10 + 8)
  | Decimal.D9 d => uintValue d (acc * 10 + 9)
  end.

(** [s.substring(0, end)] for an integer [end]: [end] is clamped to
    [0 .. s.length]. *)
Definition substring0 (s : jsstring) (endIndex : Z) : jsstring :=
  firstn (Z.to_nat endIndex) s.

End JS.

Import JS.

(** ** The Pagination component (page window) *)

Module Pagination.

Definition maxVisiblePages : Z := 5.

(** [for (let i = startPage; i <= endPage; i++) pages.push(i)], with a bound on
    the number of iterations. *)
Fixpoint pushPages (fuel : nat) (i endPage : Z) (pages : list Z) : list Z :=
  match fuel with
  | O => pages
  | S fuel' =>
      if i <=? endPage then pushPages fuel' (i + 1) endPage (pages ++ [i])
      else pages
  end.

(** The [pages] array of the component, for integer [currentPage] and
    [totalPages]. [Math.floor(maxVisiblePages / 2)] is the integer quotient. *)
Definition visiblePages (currentPage totalPages : Z) : list Z :=
  let startPage := Z.max 1 (currentPage - maxVisiblePages / 2) in
  let endPage := Z.min totalPages (startPage + maxVisiblePages - 1) in
  let startPage :=
    if endPage - startPage + 1 <? maxVisiblePages
    then Z.max 1 (endPage - maxVisiblePages + 1)
    else startPage in
  pushPages (Z.to_nat (endPage - startPage + 1)) startPage endPage [].

(** The window as the specification words it: the integers from [start] to
    [end], both included. *)
Definition interval (first last : Z) : list Z :=
  map (fun k => first + Z.of_nat k) (seq 0 (Z.to_nat (last - first + 1))).

Definition spec_start0 (currentPage : Z) : Z := Z.max 1 (currentPage - 5 / 2).
Definition spec_end (currentPage totalPages : Z) : Z :=
  Z.min totalPages (spec_start0 currentPage + 4).
Definition spec_start (currentPage totalPages : Z) : Z :=
  let s := spec_start0 currentPage in
  let e := spec_end currentPage totalPages in
  if e - s + 1 <? 5 then Z.max 1 (e - 4) else s.

(** [disabled] of the Previous and Next buttons, and of a numbered button. *)
Definition previousDisabled (currentPage : number) (isLoading : bool) : bool :=
  le currentPage (Num 1) || isLoading.

Definition nextDisabled (currentPage : number) (totalPages : Z)
    (isLoading : bool) : bool :=
  ge currentPage (Num totalPages) || isLoading.

Definition pageDisabled (isLoading : bool) : bool := isLoading.

End Pagination.

(** ** TransactionDashboard *)

Module Dashboard.

Record TransactionUser := {
  name : jsstring;
  account : jsstring
}.

(** The fields of [Transaction] that the logic reads; the amounts, fees and
    the timestamp are only formatted for display. *)
Record Transaction := {
  id : jsstring;
  sender : TransactionUser;
  receiver : TransactionUser;
  currency : jsstring;
  cause : jsstring;
  is_topup : bool;
  is_outgoing_transfer : bool
}.

Definition CURRENT_USER : jsstring := lit "current_user".
Definition API_BASE_URL : jsstring := lit "http://localhost:3001".

Definition isIncomingTransaction (transaction : Transaction)
    (currentUser : jsstring) : bool :=
  streq (account (receiver transaction)) currentUser
  || is_topup transaction
  || streq (account (sender transaction)) (account (receiver transaction)).

(** [page] is the one field the client itself computes from text
    ([parseInt]), so it can be [NaN]; the other three come from the literals
    of the source or from the server and are integers. *)
Record PaginationState := {
  page : number;
  limit : Z;
  total : Z;
  totalPages : Z
}.

(** [{ ...prev, page: p }]. *)
Definition withPage (prev : PaginationState) (p : number) : PaginationState :=
  {| page := p; limit := limit prev; total := total prev;
     totalPages := totalPages prev |}.

(** The optional sums are only shown in the summary cards; they are taken as
    integers here. [pagination_of] is the member [pagination]. *)
Record PaginatedResponse := {
  data : list Transaction;
  pagination_of : PaginationState;
  incomingSum : option Z;
  outgoingSum : option Z
}.

Record SummaryStats := {
  stats_incomingSum : Z;
  stats_outgoingSum : Z
}.

(** [x || 0] for an optional number. *)
Definition orZero (x : option Z) : Z :=
  match x with
  | Some v => v
  | None => 0
  end.

Inductive Method := GET | POST.

(** A call [fetch(url, options)]. [body] holds the [query] member of the
    object given to [JSON.stringify], when there is a body. *)
Record Request := {
  url : jsstring;
  method : Method;
  contentType : jsstring;
  body : option jsstring
}.

(** How a call of [fetch] settles: the promise rejects (network error), or a
    response arrives with a status and a body that [response.json()] either
    decodes or rejects. *)
Inductive FetchOutcome :=
| Rejected
| Responded (status : Z) (json : option PaginatedResponse).

(** [response.ok]. *)
Definition ok (status : Z) : bool := (200 <=? status) && (status <=? 299).

Record State := {
  transactions : list Transaction;
  pagination : PaginationState;
  summaryStats : SummaryStats;
  searchQuery : jsstring;
  debouncedSearchQuery : jsstring;
  isLoading : bool;
  error : option jsstring;
  location : URLSearchParams;
  fetched : list Request
}.

Definition setTransactions (v : list Transaction) (s : State) : State :=
  {| transactions := v; pagination := pagination s;
     summaryStats := summaryStats s; searchQuery := searchQuery s;
     debouncedSearchQuery := debouncedSearchQuery s; isLoading := isLoading s;
     error := error s; location := location s; fetched := fetched s |}.

Definition setPagination (f : PaginationState -> PaginationState)
    (s : State) : State :=
  {| transactions := transactions s; pagination := f (pagination s);
     summaryStats := summaryStats s; searchQuery := searchQuery s;
     debouncedSearchQuery := debouncedSearchQuery s; isLoading := isLoading s;
     error := error s; location := location s; fetched := fetched s |}.

Definition setSummaryStats (v : SummaryStats) (s : State) : State :=
  {| transactions := transactions s; pagination := pagination s;
     summaryStats := v; searchQuery := searchQuery s;
     debouncedSearchQuery := debouncedSearchQuery s; isLoading := isLoading s;
     error := error s; location := location s; fetched := fetched s |}.

Definition setSearchQuery (v : jsstring) (s : State) : State :=
  {| transactions := transactions s; pagination := pagination s;
     summaryStats := summaryStats s; searchQuery := v;
     debouncedSearchQuery := debouncedSearchQuery s; isLoading := isLoading s;
     error := error s; location := location s; fetched := fetched s |}.

(** The update of [debouncedSearchQuery] by the timer of [useDebounce]. *)
Definition setDebouncedValue (v : jsstring) (s : State) : State :=
  {| transactions := transactions s; pagination := pagination s;
     summaryStats := summaryStats s; searchQuery := searchQuery s;
     debouncedSearchQuery := v; isLoading := isLoading s;
     error := error s; location := location s; fetched := fetched s |}.

Definition setIsLoading (v : bool) (s : State) : State :=
  {| transactions := transactions s; pagination := pagination s;
     summaryStats := summaryStats s; searchQuery := searchQuery s;
     debouncedSearchQuery := debouncedSearchQuery s; isLoading := v;
     error := error s; location := location s; fetched := fetched s |}.

Definition setError (v : option jsstring) (s : State) : State :=
  {| transactions := transactions s; pagination := pagination s;
     summaryStats := summaryStats s; searchQuery := searchQuery s;
     debouncedSearchQuery := debouncedSearchQuery s; isLoading := isLoading s;
     error := v; location := location s; fetched := fetched s |}.

(** [url.searchParams.set(k, v); window.history.replaceState({}, "", url)]. *)
Definition replaceParam (k v : jsstring) (s : State) : State :=
  {| transactions := transactions s; pagination := pagination s;
     summaryStats := summaryStats s; searchQuery := searchQuery s;
     debouncedSearchQuery := debouncedSearchQuery s; isLoading := isLoading s;
     error := error s; location := set k v (location s);
     fetched := fetched s |}.

(** [fetch(url, options)]: the call is recorded, oldest first. *)
Definition fetch (r : Request) (s : State) : State :=
  {| transactions := transactions s; pagination := pagination s;
     summaryStats := summaryStats s; searchQuery := searchQuery s;
     debouncedSearchQuery := debouncedSearchQuery s; isLoading := isLoading s;
     error := error s; location := location s;
     fetched := fetched s ++ [r] |}.

(** The [url] and [options] that [fetchTransactions] builds. *)
Definition request (page : number) (query : jsstring) (limit : Z) : Request :=
  if truthy (trim query) then
    {| url := API_BASE_URL ++ lit "/api/transactions/search?page="
              ++ toString page ++ lit "&limit=" ++ toString (Num limit);
       method := POST;
       contentType := lit "application/json";
       body := Some (trim query) |}
  else
    {| url := API_BASE_URL ++ lit "/api/transactions?page="
              ++ toString page ++ lit "&limit=" ++ toString (Num limit);
       method := GET;
       contentType := lit "application/json";
       body := None |}.

(** [fetchTransactions(page, query)] up to [await fetch(url, options)]. *)
Definition fetchTransactions (page : number) (query : jsstring)
    (s : State) : State :=
  let s := setIsLoading true s in
  let s := setError None s in
  fetch (request page query (limit (pagination s))) s.

Definition errorMessage : jsstring :=
  lit "Failed to load transactions. Please check your connection and try again.".

(** What the [try] block receives: the decoded body, or nothing when
    [fetch] rejects, [response.ok] is false (the [throw]) or [json()]
    rejects. *)
Definition received (o : FetchOutcome) : option PaginatedResponse :=
  match o with
  | Rejected => None
  | Responded status json => if negb (ok status) then None else json
  end.

(** The rest of [fetchTransactions], run when the request settles: the end of
    the [try] block or the [catch] block, then [finally]. *)
Definition fetchSettled (o : FetchOutcome) (s : State) : State :=
  let s :=
    match received o with
    | Some d =>
        let s := setTransactions (data d) s in
        let s := setPagination (fun _ => pagination_of d) s in
        setSummaryStats
          {| stats_incomingSum := orZero (incomingSum d);
             stats_outgoingSum := orZero (outgoingSum d) |} s
    | None =>
        let s := setError (Some errorMessage) s in
        let s := setTransactions [] s in
        let s := setPagination
                   (fun _ => {| page := Num 1; limit := 10; total := 0;
                                totalPages := 0 |}) s in
        setSummaryStats {| stats_incomingSum := 0; stats_outgoingSum := 0 |} s
    end in
  setIsLoading false s.

(** The state of the first render, for the URL the page was opened with. *)
Definition initialState (loc : URLSearchParams) : State :=
  {| transactions := [];
     pagination := {| page := Num 1; limit := 10; total := 0; totalPages := 0 |};
     summaryStats := {| stats_incomingSum := 0; stats_outgoingSum := 0 |};
     searchQuery := [];
     debouncedSearchQuery := [];
     isLoading := true;
     error := None;
     location := loc;
     fetched := [] |}.

(** [pageParam ? parseInt(pageParam, 10) : 1] of the mount effect. *)
Definition initialPage (loc : URLSearchParams) : number :=
  match get (lit "p") loc with
  | Some pageParam => if truthy pageParam then parseInt pageParam else Num 1
  | None => Num 1
  end.

(** The effect "Load transactions on component mount"; [fetchTransactions] is
    called with one argument, so [query] takes its default, the empty
    string. *)
Definition mountEffect (s : State) : State :=
  let initialPage := initialPage (location s) in
  let s := setPagination (fun prev => withPage prev initialPage) s in
  fetchTransactions initialPage [] s.

(** The effect "Handle search". *)
Definition searchEffect (s : State) : State :=
  if negb (streq (debouncedSearchQuery s) (searchQuery s)) then s
  else
    let newPage := Num 1 in
    let s := setPagination (fun prev => withPage prev newPage) s in
    let s := replaceParam (lit "p") (toString newPage) s in
    fetchTransactions newPage (debouncedSearchQuery s) s.

Definition handlePageChange (newPage : number) (s : State) : State :=
  if lt newPage (Num 1) || gt newPage (Num (totalPages (pagination s)))
     || isLoading s
  then s
  else
    let s := setPagination (fun prev => withPage prev newPage) s in
    let s := replaceParam (lit "p") (toString newPage) s in
    fetchTransactions newPage (debouncedSearchQuery s) s.

Definition handleRetry (s : State) : State :=
  fetchTransactions (page (pagination s)) (debouncedSearchQuery s) s.

(** What can happen to the dashboard: its effects run, the user types, the
    debounce timer delivers a value, a button of the [Pagination] component is
    pressed (previous, next, or one of the numbered pages), the retry button
    is pressed, a request settles. *)
Inductive Event :=
| MountEffect
| SearchEffect
| Typed (v : jsstring)
| Debounced (v : jsstring)
| ClickPrevious
| ClickNext
| ClickPage (p : Z)
| Retry
| Settled (o : FetchOutcome).

Definition step (s : State) (e : Event) : State :=
  match e with
  | MountEffect => mountEffect s
  | SearchEffect => searchEffect s
  | Typed v => setSearchQuery v s
  | Debounced v => setDebouncedValue v s
  | ClickPrevious => handlePageChange (plus (page (pagination s)) (-1)) s
  | ClickNext => handlePageChange (plus (page (pagination s)) 1) s
  | ClickPage p => handlePageChange (Num p) s
  | Retry => handleRetry s
  | Settled o => fetchSettled o s
  end.

Definition run (s : State) (trace : list Event) : State :=
  fold_left step trace s.

(** [ceil(total / limit)] for [limit > 0]. *)
Definition ceilDiv (total limit : Z) : Z := (total + limit - 1) / limit.

(** The invariant the specification gives for [PaginationState]. *)
Definition invariant (p : PaginationState) : Prop :=
  (0 < limit p -> totalPages p = ceilDiv (total p) (limit p))
  /\ exists n, page p = Num n /\ 1 <= n <= Z.max (totalPages p) 1.

Definition invariantb (p : PaginationState) : bool :=
  ((limit p <=? 0) || (totalPages p =? ceilDiv (total p) (limit p)))
  && match page p with
     | Num n => (1 <=? n) && (n <=? Z.max (totalPages p) 1)
     | NaN => false
     end.

(** What happens to the dashboard between two renders: the user types, the
    debounce timer delivers a value, a button is pressed, a request settles.
    The effects are no inputs: React runs them after a render, when one of
    their dependencies has changed. *)
Inductive Input :=
| Types (v : jsstring)
| DebounceFires (v : jsstring)
| PressPrevious
| PressNext
| PressPage (p : Z)
| PressRetry
| Settles (o : FetchOutcome).

Definition eventOf (i : Input) : Event :=
  match i with
  | Types v => Typed v
  | DebounceFires v => Debounced v
  | PressPrevious => ClickPrevious
  | PressNext => ClickNext
  | PressPage p => ClickPage p
  | PressRetry => Retry
  | Settles o => Settled o
  end.

(** The effects that run after the render that follows a change of the state
    from [before] to [after]. [fetchTransactions] is a new function exactly
    when [pagination.limit] has changed ([useCallback] with
    [[pagination.limit]]); the mount effect depends on [fetchTransactions],
    the search effect on the two queries and on [fetchTransactions]; they run
    in the order of their declaration. What the effects themselves set (the
    page, [isLoading], [error]) is no dependency of either. *)
Definition effectsAfter (before after : State) : State :=
  let limitChanged :=
    negb (limit (pagination after) =? limit (pagination before)) in
  let queryChanged :=
    negb (streq (debouncedSearchQuery after) (debouncedSearchQuery before))
    || negb (streq (searchQuery after) (searchQuery before)) in
  let s := if limitChanged then mountEffect after else after in
  if limitChanged || queryChanged then searchEffect s else s.

(** The state React commits after an input: the handler or continuation
    runs, then the effects whose dependencies have changed. *)
Definition commit (s : State) (i : Input) : State :=
  effectsAfter s (step s (eventOf i)).

(** The state committed by the first render: both effects run. *)
Definition firstRender (loc : URLSearchParams) : State :=
  searchEffect (mountEffect (initialState loc)).

(** The state committed after a sequence of inputs, for the URL the page
    was opened with. *)
Definition committed (loc : URLSearchParams) (inputs : list Input) : State :=
  fold_left commit inputs (firstRender loc).

(** A decoded response is in order when its pagination block satisfies the
    invariant and carries the page size in use. *)
Definition responseOk (s : State) (i : Input) : Prop :=
  match i with
  | Settles o =>
      match received o with
      | Some d =>
          invariant (pagination_of d)
          /\ limit (pagination_of d) = limit (pagination s)
      | None => True
      end
  | _ => True
  end.

Fixpoint responsesOk (s : State) (inputs : list Input) : Prop :=
  match inputs with
  | [] => True
  | i :: rest => responseOk s i /\ responsesOk (commit s i) rest
  end.

(** The page buttons among the events. *)
Definition isClick (e : Event) : bool :=
  match e with
  | ClickPrevious | ClickNext | ClickPage _ => true
  | _ => false
  end.

(** What the content area of the dashboard shows: the error panel with its
    retry button, the spinner, the empty notice with its hint, or the rows,
    each with its direction, and with or without the [Pagination] bar. The
    rows are the same in the table and in the card view. *)
Inductive Content :=
| ShowError (message : jsstring)
| ShowSpinner
| ShowEmpty (hint : jsstring)
| ShowRows (rows : list (Transaction * bool)) (withPagination : bool).

(** The conditional chain under "Content" in the JSX:
    [error ? ... : isLoading ? ... : transactions.length === 0 ? ... : ...],
    here its part after the test of [error]. *)
Definition listing (s : State) : Content :=
  if isLoading s then ShowSpinner
  else match transactions s with
       | [] => ShowEmpty (if truthy (searchQuery s)
                          then lit "Try adjusting your search terms."
                          else lit "No transactions available.")
       | ts => ShowRows
                 (map (fun t => (t, isIncomingTransaction t CURRENT_USER)) ts)
                 (1 <? totalPages (pagination s))
       end.

Definition content (s : State) : Content :=
  match error s with
  | Some message => if truthy message then ShowError message else listing s
  | None => listing s
  end.

(** The counters "Incoming (This Page)" and "Outgoing (This Page)". *)
Definition incomingCount (ts : list Transaction) : nat :=
  List.length (filter (fun t => isIncomingTransaction t CURRENT_USER) ts).

Definition outgoingCount (ts : list Transaction) : nat :=
  List.length
    (filter (fun t => negb (isIncomingTransaction t CURRENT_USER)) ts).

(** A request fails when the network does or when the status is not 2xx. *)
Definition failed (o : FetchOutcome) : bool :=
  match o with
  | Rejected => true
  | Responded status _ => negb (ok status)
  end.

(** Sample data: a response for page 1 of 25 rows, and the dashboard once it
    has arrived. *)
Definition sampleResponse : PaginatedResponse :=
  {| data := [];
     pagination_of := {| page := Num 1; limit := 10; total := 25;
                         totalPages := 3 |};
     incomingSum := None;
     outgoingSum := None |}.

Definition sampleLoaded : State :=
  run (initialState [])
      [MountEffect; SearchEffect; Settled (Responded 200 (Some sampleResponse))].

(** What a server that echoes the requested page answers for page 7 of the
    same 25 rows. *)
Definition sampleResponse7 : PaginatedResponse :=
  {| data := [];
     pagination_of := {| page := Num 7; limit := 10; total := 25;
                         totalPages := 3 |};
     incomingSum := None;
     outgoingSum := None |}.

(** Answers for page 3 of the same 25 rows, and for page 1 by a server that
    uses a page size of 20. *)
Definition sampleResponse3 : PaginatedResponse :=
  {| data := [];
     pagination_of := {| page := Num 3; limit := 10; total := 25;
                         totalPages := 3 |};
     incomingSum := None;
     outgoingSum := None |}.

Definition sampleResponse20 : PaginatedResponse :=
  {| data := [];
     pagination_of := {| page := Num 1; limit := 20; total := 25;
                         totalPages := 2 |};
     incomingSum := None;
     outgoingSum := None |}.

(** A row, and the dashboard showing page 1 of 3 with that row. *)
Definition sampleRow : Transaction :=
  {| id := lit "t1";
     sender := {| name := lit "Abebe"; account := lit "abebe" |};
     receiver := {| name := lit "Current"; account := lit "current_user" |};
     currency := lit "ETB";
     cause := lit "rent";
     is_topup := false;
     is_outgoing_transfer := false |}.

Definition sampleListed : State :=
  fetchSettled
    (Responded 200
       (Some {| data := [sampleRow];
                pagination_of := {| page := Num 1; limit := 10; total := 25;
                                    totalPages := 3 |};
                incomingSum := None;
                outgoingSum := None |}))
    (initialState []).

End Dashboard.

(** ** Formatters *)

Module Formatters.

(** [truncateText(text, maxLength)] for an integer [maxLength]. *)
Definition truncateText (text : jsstring) (maxLength : Z) : jsstring :=
  if Z.of_nat (List.length text) <=? maxLength then text
  else substring0 text maxLength ++ lit "...".

End Formatters.

(** ** The useTransactions hook *)

Module Hook.

Section WithTransaction.

(** The rows of the table; the hook only stores them. *)
Variable Transaction : Type.

Record PaginationInfo := {
  page : number;
  limit : Z;
  total : Z;
  totalPages : Z
}.

Record PaginatedResponse := {
  data : list Transaction;
  pagination_of : PaginationInfo
}.

Inductive Method := GET | POST.

(** A call [apiClient.get(path, params)] or
    [apiClient.post(path, { query }, params)]. *)
Record ApiCall := {
  method : Method;
  path : jsstring;
  body : option jsstring;
  params : list (jsstring * jsstring)
}.

(** The promise of [apiClient] resolves with a response or rejects. *)
Inductive ApiOutcome :=
| Resolved (response : PaginatedResponse)
| Threw.

Record State := {
  transactions : list Transaction;
  pagination : PaginationInfo;
  isLoading : bool;
  error : option jsstring;
  called : list ApiCall
}.

(** [useTransactions(initialPage)], first render. *)
Definition initialState (initialPage : number) : State :=
  {| transactions := [];
     pagination := {| page := initialPage; limit := 10; total := 0;
                      totalPages := 0 |};
     isLoading := true;
     error := None;
     called := [] |}.

Definition call (page : number) (query : jsstring) (limit : Z) : ApiCall :=
  if truthy (trim query) then
    {| method := POST;
       path := lit "/api/transactions/search";
       body := Some (trim query);
       params := [(lit "page", toString page);
                  (lit "limit", toString (Num limit))] |}
  else
    {| method := GET;
       path := lit "/api/transactions";
       body := None;
       params := [(lit "page", toString page);
                  (lit "limit", toString (Num limit))] |}.

(** [fetchTransactions(page, query)] up to the [await]. *)
Definition fetchTransactions (page : number) (query : jsstring)
    (s : State) : State :=
  {| transactions := transactions s;
     pagination := pagination s;
     isLoading := true;
     error := None;
     called := called s ++ [call page query (limit (pagination s))] |}.

Definition errorMessage : jsstring :=
  lit "Failed to load transactions. Please check your connection and try again.".

(** The rest of [fetchTransactions]: end of [try] or [catch], then
    [finally]. *)
Definition fetchSettled (o : ApiOutcome) (s : State) : State :=
  match o with
  | Resolved response =>
      {| transactions := data response;
         pagination := pagination_of response;
         isLoading := false;
         error := error s;
         called := called s |}
  | Threw =>
      {| transactions := [];
         pagination := {| page := page (pagination s);
                          limit := limit (pagination s);
                          total := 0; totalPages := 0 |};
         isLoading := false;
         error := Some errorMessage;
         called := called s |}
  end.

End WithTransaction.

Arguments Resolved {Transaction} response.
Arguments Threw {Transaction}.
Arguments transactions {Transaction} s.
Arguments pagination {Transaction} s.
Arguments isLoading {Transaction} s.
Arguments error {Transaction} s.
Arguments called {Transaction} s.
Arguments fetchTransactions {Transaction} page query s.
Arguments fetchSettled {Transaction} o s.

End Hook.

(** ** The useDebounce hook *)

Module Debounce.

(** Times are in milliseconds. [value] and [delay] are the dependencies the
    effect last ran with; [handler] is the pending timeout, if any: the time
    from which it may run and the value its callback captured. *)
Record Hook := {
  value : jsstring;
  delay : nat;
  debouncedValue : jsstring;
  handler : option (nat * jsstring)
}.

(** First render at time [now]: [useState(value)], then the effect runs. *)
Definition mount (now : nat) (v : jsstring) (d : nat) : Hook :=
  {| value := v; delay := d; debouncedValue := v;
     handler := Some ((now + d)%nat, v) |}.

(** A later render at time [now]. With a changed dependency the cleanup
    clears the pending timeout and the effect sets a new one; otherwise the
    effect does not run. *)
Definition render (now : nat) (v : jsstring) (d : nat) (h : Hook) : Hook :=
  if streq v (value h) && Nat.eqb d (delay h) then h
  else {| value := v; delay := d; debouncedValue := debouncedValue h;
          handler := Some ((now + d)%nat, v) |}.

(** The timeout callback runs at time [now]: possible only for a pending
    timeout whose delay has elapsed. It calls [setDebouncedValue]; the
    render that follows has the same dependencies. *)
Definition timeout (now : nat) (h : Hook) : option Hook :=
  match handler h with
  | Some (due, v) =>
      if Nat.leb due now
      then Some {| value := value h; delay := delay h; debouncedValue := v;
                   handler := None |}
      else None
  | None => None
  end.

Inductive Event :=
| Change (v : jsstring)
| Timeout.

(** A run of the hook: its state, the time of the last event and the values
    emitted so far, each with its time. *)
Record Run := {
  hook : Hook;
  clock : nat;
  emitted : list (nat * jsstring)
}.

Definition start (t0 : nat) (v0 : jsstring) (d : nat) : Run :=
  {| hook := mount t0 v0 d; clock := t0; emitted := [] |}.

(** One timed event; [None] when time would run backwards or the timeout
    cannot run yet. *)
Definition stepRun (r : Run) (te : nat * Event) : option Run :=
  let '(now, e) := te in
  if Nat.ltb now (clock r) then None
  else
    match e with
    | Change v =>
        Some {| hook := render now v (delay (hook r)) (hook r);
                clock := now; emitted := emitted r |}
    | Timeout =>
        match timeout now (hook r) with
        | Some h => Some {| hook := h; clock := now;
                            emitted := emitted r ++ [(now, debouncedValue h)] |}
        | None => None
        end
    end.

Fixpoint runFrom (r : Run) (trace : list (nat * Event)) : option Run :=
  match trace with
  | [] => Some r
  | te :: rest =>
      match stepRun r te with
      | Some r' => runFrom r' rest
      | None => None
      end
  end.


(** The changes of the raw value in a trace. *)
Fixpoint changesOf (trace : list (nat * Event)) : list (nat * jsstring) :=
  match trace with
  | [] => []
  | (t, Change v) :: rest => (t, v) :: changesOf rest
  | (_, Timeout) :: rest => changesOf rest
  end.






(** Sample run: the hook mounts at time 0 with the empty string and delay
    300; "a", "ab" and "abc" are typed at 100, 200 and 290 ms, and the timer
    runs at 590 ms. *)
Definition sampleTrace : list (nat * Event) :=
  [(100%nat, Change (lit "a")); (200%nat, Change (lit "ab"));
   (290%nat, Change (lit "abc")); (590%nat, Timeout)].

(** A second sample run, with two updates: "a" is typed at 100 ms and the
    timer runs at 400 ms; "ab" is typed at 500 ms and the timer runs at
    800 ms. *)
Definition sampleTrace2 : list (nat * Event) :=
  [(100%nat, Change (lit "a")); (400%nat, Timeout);
   (500%nat, Change (lit "ab")); (800%nat, Timeout)].

Definition sampleEnd2 : Run :=
  {| hook := {| value := lit "ab"; delay := 300; debouncedValue := lit "ab";
                handler := None |};
     clock := 800;
     emitted := [(400%nat, lit "a"); (800%nat, lit "ab")] |}.

Definition sampleEnd : Run :=
  {| hook := {| value := lit "abc"; delay := 300; debouncedValue := lit "abc";
                handler := None |};
     clock := 590;
     emitted := [(590%nat, lit "abc")] |}.

(** Times that are at least [d] ms apart, one after the other. *)
Fixpoint spaced (d : nat) (ts : list nat) : Prop :=
  match ts with
  | [] => True
  | t1 :: rest =>
      match rest with
      | [] => True
      | t2 :: _ => (t1 + d <= t2)%nat
      end /\ spaced d rest
  end.

(** What a run from the first render keeps: the delay, emissions [d] ms
    apart and not after the clock, and a pending timeout due at least [d] ms
    after the last emission. *)
Definition paced (d : nat) (r : Run) : Prop :=
  delay (hook r) = d
  /\ spaced d (map fst (emitted r))
  /\ forall tl, emitted r <> [] -> last (map fst (emitted r)) O = tl ->
                (tl <= clock r)%nat
                /\ forall due v, handler (hook r) = Some (due, v) ->
                                 (tl + d <= due)%nat.

(** 1 when a timeout is pending, 0 otherwise. *)
Definition pendingCount (h : Hook) : nat :=
  match handler h with
  | Some _ => 1
  | None => 0
  end.

End Debounce.

(** * Properties *)

(** ** Page window *)

Section PageWindow.

Import Pagination.

Lemma interval_empty (a b : Z) : b < a -> interval a b = [].
Proof.
  intros H. unfold interval.
  replace (Z.to_nat (b - a + 1)) with 0%nat by lia. reflexivity.
Qed.

Lemma interval_cons (a b : Z) : a <= b -> interval a b = a :: interval (a + 1) b.
Proof.
  intros H. unfold interval.
  replace (Z.to_nat (b - a + 1)) with (S (Z.to_nat (b - (a + 1) + 1))) by lia.
  cbn [seq map]. f_equal; [lia|].
  rewrite <- seq_shift, map_map.
  apply map_ext. intros k. lia.
Qed.

Lemma length_interval (a b : Z) : List.length (interval a b) = Z.to_nat (b - a + 1).
Proof. unfold interval. now rewrite length_map, length_seq. Qed.

Lemma In_interval (a b p : Z) : In p (interval a b) <-> a <= p <= b.
Proof.
  unfold interval. rewrite in_map_iff. split.
  - intros (k & <- & Hk). apply in_seq in Hk. lia.
  - intros H. exists (Z.to_nat (p - a)). split; [lia|].
    apply in_seq. lia.
Qed.

(** The loop stops by its own test: any bound of at least
    [endPage - i + 1] iterations gives the interval. *)
Lemma pushPages_interval (fuel : nat) :
  forall i endPage pages,
    (Z.to_nat (endPage - i + 1) <= fuel)%nat ->
    pushPages fuel i endPage pages = pages ++ interval i endPage.
Proof.
  induction fuel as [|fuel IH]; intros i e pages Hfuel; cbn [pushPages].
  - rewrite interval_empty by lia. now rewrite app_nil_r.
  - destruct (Z.leb_spec i e) as [Hle|Hgt].
    + rewrite IH by lia. rewrite (interval_cons i e Hle).
      now rewrite <- app_assoc.
    + rewrite interval_empty by lia. now rewrite app_nil_r.
Qed.

Lemma visiblePages_interval (currentPage totalPages : Z) :
  visiblePages currentPage totalPages
  = interval (spec_start currentPage totalPages) (spec_end currentPage totalPages).
Proof.
  unfold visiblePages, spec_start, spec_end, spec_start0, maxVisiblePages.
  rewrite pushPages_interval by lia. cbn [app].
  set (s0 := Z.max 1 (currentPage - 5 / 2)).
  replace (s0 + 5 - 1) with (s0 + 4) by lia.
  set (e := Z.min totalPages (s0 + 4)).
  replace (e - 5 + 1) with (e - 4) by lia.
  reflexivity.
Qed.

(** C1: for [currentPage >= 1] and [totalPages >= 0] the component emits
    exactly the integers from [start] to [end], both included, where
    [start = max(1, currentPage - floor(5/2))], [end = min(totalPages, start + 4)]
    and [start] becomes [max(1, end - 4)] when [end - start + 1 < 5]; with 12
    pages, page 1 gives [1..5], page 10 gives [8..12] and page 7 gives
    [5..9]. *)
Theorem C1_window_is_interval (currentPage totalPages : Z) :
  1 <= currentPage -> 0 <= totalPages ->
  visiblePages currentPage totalPages
  = interval (spec_start currentPage totalPages) (spec_end currentPage totalPages)
  /\ (forall p, In p (visiblePages currentPage totalPages)
                <-> spec_start currentPage totalPages <= p
                    <= spec_end currentPage totalPages)
  /\ visiblePages 1 12 = [1; 2; 3; 4; 5]
  /\ visiblePages 10 12 = [8; 9; 10; 11; 12]
  /\ visiblePages 7 12 = [5; 6; 7; 8; 9].
Proof.
  intros _ _. split; [apply visiblePages_interval|].
  split; [|repeat split; reflexivity].
  intros p. rewrite visiblePages_interval. apply In_interval.
Qed.

Lemma C1_window_is_interval_witness :
  1 <= 3 /\ 0 <= 4 /\ visiblePages 3 4 = interval (spec_start 3 4) (spec_end 3 4).
Proof.
  split; [lia|]. split; [lia|].
  apply (C1_window_is_interval 3 4); lia.
Defined.

Lemma spec_bounds (currentPage totalPages : Z) :
  1 <= totalPages -> 1 <= currentPage <= totalPages ->
  spec_end currentPage totalPages - spec_start currentPage totalPages + 1
  = Z.min 5 totalPages
  /\ spec_start currentPage totalPages <= currentPage
     <= spec_end currentPage totalPages.
Proof.
  intros Htp Hcp. unfold spec_start, spec_end, spec_start0.
  change (5 / 2) with 2.
  destruct (Z.ltb_spec
              (Z.min totalPages (Z.max 1 (currentPage - 2) + 4)
               - Z.max 1 (currentPage - 2) + 1) 5); lia.
Qed.

(** C2: for [totalPages >= 1] and [currentPage] in [1, totalPages], the
    window has exactly [min(5, totalPages)] entries and [currentPage] is one
    of them. *)
Theorem C2_window_length_and_member (currentPage totalPages : Z) :
  1 <= totalPages -> 1 <= currentPage <= totalPages ->
  Z.of_nat (List.length (visiblePages currentPage totalPages)) = Z.min 5 totalPages
  /\ In currentPage (visiblePages currentPage totalPages).
Proof.
  intros Htp Hcp.
  destruct (spec_bounds currentPage totalPages Htp Hcp) as [Hlen Hin].
  rewrite visiblePages_interval, length_interval. split.
  - lia.
  - now apply In_interval.
Qed.

Lemma C2_window_length_and_member_witness :
  Z.of_nat (List.length (visiblePages 12 12)) = Z.min 5 12 /\ In 12 (visiblePages 12 12).
Proof. apply (C2_window_length_and_member 12 12); lia. Defined.

End PageWindow.

(** ** Strings and URL parameters *)

Section Strings.

Lemma streq_refl (a : jsstring) : streq a a = true.
Proof.
  induction a as [|x a IH]; [reflexivity|].
  cbn. now rewrite N.eqb_refl, IH.
Qed.

Lemma streq_eq (a b : jsstring) : streq a b = true <-> a = b.
Proof.
  split; [|intros ->; apply streq_refl].
  revert b. induction a as [|x a IH]; intros [|y b] H; cbn in H;
    try discriminate; [reflexivity|].
  apply andb_true_iff in H as [Hx Hab].
  apply N.eqb_eq in Hx. f_equal; auto.
Qed.

Lemma get_set (k v : jsstring) (ps : URLSearchParams) :
  get k (set k v ps) = Some v.
Proof.
  induction ps as [|[k' v'] ps IH]; cbn.
  - now rewrite streq_refl.
  - destruct (streq k' k) eqn:E; cbn; now rewrite E.
Qed.

Lemma trimStart_blank (s : jsstring) :
  forallb isWhiteSpace s = true -> trimStart s = [].
Proof.
  induction s as [|c s IH]; [reflexivity|].
  cbn [forallb trimStart]. intros H.
  apply andb_true_iff in H as [Hc Hs]. rewrite Hc. auto.
Qed.

(** A query of white space only trims to the empty string. *)
Lemma trim_blank (s : jsstring) :
  forallb isWhiteSpace s = true -> trim s = [].
Proof.
  intros H. unfold trim, trimEnd. now rewrite (trimStart_blank s H).
Qed.

Lemma trimStart_head (s : jsstring) (c : code_unit) (r : jsstring) :
  trimStart s = c :: r -> isWhiteSpace c = false.
Proof.
  induction s as [|x s IH]; cbn; [discriminate|].
  destruct (isWhiteSpace x) eqn:E; [exact IH|].
  intros H. injection H as -> _. exact E.
Qed.

(** The trimmed string does not end with white space. *)
Lemma trim_last (s : jsstring) (c : code_unit) (r : jsstring) :
  trim s = r ++ [c] -> isWhiteSpace c = false.
Proof.
  unfold trim, trimEnd. intros H.
  apply (f_equal (@rev code_unit)) in H.
  rewrite rev_involutive, rev_app_distr in H. cbn in H.
  exact (trimStart_head _ _ _ H).
Qed.

Lemma trimStart_suffix (s : jsstring) :
  exists pre, s = pre ++ trimStart s /\ forallb isWhiteSpace pre = true.
Proof.
  induction s as [|x s (pre & Hs & Hpre)]; [now exists []|].
  cbn [trimStart]. destruct (isWhiteSpace x) eqn:E.
  - exists (x :: pre). cbn. rewrite E, Hpre. split; [now f_equal|reflexivity].
  - now exists [].
Qed.

(** The trimmed string does not start with white space. *)
Lemma trim_head (s : jsstring) (c : code_unit) (r : jsstring) :
  trim s = c :: r -> isWhiteSpace c = false.
Proof.
  unfold trim, trimEnd. intros H.
  destruct (trimStart s) as [|c0 s0] eqn:Hs; [discriminate|].
  pose proof (trimStart_head _ _ _ Hs) as Hc0.
  destruct (trimStart_suffix (rev (c0 :: s0))) as (pre & Hrev & Hpre).
  apply (f_equal (@rev code_unit)) in Hrev.
  rewrite rev_involutive, rev_app_distr, H in Hrev.
  cbn in Hrev. injection Hrev as -> _. exact Hc0.
Qed.

End Strings.

(** ** Page changes, initial page, requests and failures of the dashboard *)

Section DashboardProperties.

Import Dashboard.

(** C3: a page change to a page below 1 or above [pagination.totalPages], or
    requested while a fetch is in flight, does nothing: the state, and with
    it the pagination, the URL and the list of issued requests, is the one
    before. *)
Theorem C3_rejected_page_change_is_noop (s : State) (newPage : number) :
  lt newPage (Num 1) = true
  \/ gt newPage (Num (totalPages (pagination s))) = true
  \/ isLoading s = true ->
  handlePageChange newPage s = s
  /\ pagination (handlePageChange newPage s) = pagination s
  /\ location (handlePageChange newPage s) = location s
  /\ fetched (handlePageChange newPage s) = fetched s.
Proof.
  intros H.
  assert (E : handlePageChange newPage s = s).
  { unfold handlePageChange.
    destruct H as [-> | [-> | ->]]; [reflexivity | |].
    - now rewrite orb_true_r.
    - now rewrite orb_true_r. }
  now rewrite E.
Qed.

Lemma C3_rejected_page_change_is_noop_witness :
  handlePageChange (Num 4) sampleLoaded = sampleLoaded
  /\ handlePageChange (Num 0) sampleLoaded = sampleLoaded
  /\ handlePageChange (Num 2) (initialState []) = initialState [].
Proof.
  split; [|split].
  - apply (C3_rejected_page_change_is_noop sampleLoaded (Num 4)).
    right; left; reflexivity.
  - apply (C3_rejected_page_change_is_noop sampleLoaded (Num 0)).
    left; reflexivity.
  - apply (C3_rejected_page_change_is_noop (initialState []) (Num 2)).
    right; right; reflexivity.
Defined.

(** C4: an accepted page change (1 <= newPage <= totalPages, nothing in
    flight) sets [pagination.page] to [newPage] and keeps [limit], [total] and
    [totalPages], stores [newPage] under the URL parameter [p], and issues one
    more request, the one for [newPage] and the current debounced query. *)
Theorem C4_accepted_page_change (s : State) (newPage : Z) :
  1 <= newPage <= totalPages (pagination s) ->
  isLoading s = false ->
  let s' := handlePageChange (Num newPage) s in
  page (pagination s') = Num newPage
  /\ limit (pagination s') = limit (pagination s)
  /\ total (pagination s') = total (pagination s)
  /\ totalPages (pagination s') = totalPages (pagination s)
  /\ get (lit "p") (location s') = Some (toString (Num newPage))
  /\ fetched s'
     = fetched s ++ [request (Num newPage) (debouncedSearchQuery s)
                             (limit (pagination s))].
Proof.
  intros [Hlo Hhi] Hload. unfold handlePageChange, gt, lt.
  destruct (Z.ltb_spec newPage 1); [lia|].
  destruct (Z.ltb_spec (totalPages (pagination s)) newPage); [lia|].
  rewrite Hload. cbn.
  repeat split; try reflexivity. apply get_set.
Qed.

Lemma C4_accepted_page_change_witness :
  page (pagination (handlePageChange (Num 3) sampleLoaded)) = Num 3
  /\ get (lit "p") (location (handlePageChange (Num 3) sampleLoaded))
     = Some (lit "3")
  /\ map url (fetched (handlePageChange (Num 3) sampleLoaded))
     = [lit "http://localhost:3001/api/transactions?page=1&limit=10";
        lit "http://localhost:3001/api/transactions?page=1&limit=10";
        lit "http://localhost:3001/api/transactions?page=3&limit=10"].
Proof.
  assert (H13 : 1 <= 3 <= totalPages (pagination sampleLoaded))
    by (vm_compute; split; discriminate).
  destruct (C4_accepted_page_change sampleLoaded 3 H13 eq_refl)
    as (Hpage & _ & _ & _ & Hurl & Hreq).
  split; [exact Hpage|]. split; [exact Hurl|].
  rewrite Hreq. reflexivity.
Defined.

(** After an accepted page change, a reload reads the same page back from
    the URL. *)
Example reload_reads_page_back :
  initialPage (location (handlePageChange (Num 3) sampleLoaded)) = Num 3.
Proof. reflexivity. Qed.

(** Without a parameter [p], or with an empty one, the initial page is 1. *)
Lemma initialPage_default (loc : URLSearchParams) :
  get (lit "p") loc = None \/ get (lit "p") loc = Some [] ->
  initialPage loc = Num 1.
Proof. unfold initialPage. now intros [-> | ->]. Qed.

(** C5: the specification wants every malformed page parameter to give
    page 1. For [?p=abc] the mount effect computes [NaN]: it stores [NaN] in
    [pagination.page] and asks the server for [page=NaN]. Only an absent or
    empty parameter gives 1 ([initialPage_default]). *)
Theorem C5_nonnumeric_page_param_gives_NaN :
  let loc := [(lit "p", lit "abc")] in
  initialPage loc = NaN
  /\ page (pagination (mountEffect (initialState loc))) = NaN
  /\ map url (fetched (mountEffect (initialState loc)))
     = [lit "http://localhost:3001/api/transactions?page=NaN&limit=10"]
  /\ initialPage [(lit "p", lit "-3")] = Num (-3)
  /\ initialPage [(lit "p", lit "0")] = Num 0.
Proof. repeat split; reflexivity. Qed.

(** C6: whenever a fetch fails, by a network error or a status that is not
    2xx, the dashboard ends with no transactions, the pagination
    [{page: 1, limit: 10, total: 0, totalPages: 0}], and the one fixed,
    non-empty error message, whatever the failure; the hook does the same,
    keeping its [page] and [limit]. *)
Theorem C6_failure_resets (s : State) (o : FetchOutcome) :
  failed o = true ->
  let s' := fetchSettled o s in
  transactions s' = []
  /\ pagination s'
     = {| page := Num 1; limit := 10; total := 0; totalPages := 0 |}
  /\ error s' = Some errorMessage
  /\ errorMessage <> []
  /\ isLoading s' = false
  /\ forall (T : Type) (h : Hook.State T),
       let h' := Hook.fetchSettled Hook.Threw h in
       Hook.transactions h' = []
       /\ Hook.total (Hook.pagination h') = 0
       /\ Hook.totalPages (Hook.pagination h') = 0
       /\ Hook.error h' = Some Hook.errorMessage
       /\ Hook.errorMessage <> []
       /\ Hook.isLoading h' = false.
Proof.
  intros Hfail.
  assert (Hrecv : received o = None).
  { destruct o as [|status json]; [reflexivity|].
    cbn in Hfail |- *. now rewrite Hfail. }
  unfold fetchSettled. rewrite Hrecv. cbn.
  repeat split; try reflexivity; discriminate.
Qed.

Lemma C6_failure_resets_witness :
  transactions (fetchSettled (Responded 500 None) sampleLoaded) = []
  /\ error (fetchSettled Rejected sampleLoaded)
     = error (fetchSettled (Responded 404 (Some sampleResponse)) sampleLoaded).
Proof.
  split.
  - apply (C6_failure_resets sampleLoaded (Responded 500 None)). reflexivity.
  - destruct (C6_failure_resets sampleLoaded Rejected eq_refl)
      as (_ & _ & -> & _).
    destruct (C6_failure_resets sampleLoaded
                (Responded 404 (Some sampleResponse)) eq_refl)
      as (_ & _ & -> & _).
    reflexivity.
Defined.

(** C7: [fetchTransactions] issues exactly one request. When the trimmed
    query is empty it is [GET /api/transactions]; otherwise it is
    [POST /api/transactions/search] whose body carries the trimmed query.
    Both carry [page] and [limit] as query parameters. The hook makes the
    same choice through [apiClient]. *)
Theorem C7_request_by_trimmed_query (page : number) (query : jsstring)
    (s : State) (T : Type) (h : Hook.State T) :
  let L := toString (Num (limit (pagination s))) in
  let L' := toString (Num (Hook.limit (Hook.pagination h))) in
  (exists r,
     fetched (fetchTransactions page query s) = fetched s ++ [r]
     /\ match trim query with
        | [] =>
            method r = GET /\ body r = None
            /\ url r = API_BASE_URL ++ lit "/api/transactions?page="
                       ++ toString page ++ lit "&limit=" ++ L
        | q =>
            method r = POST /\ body r = Some q
            /\ url r = API_BASE_URL ++ lit "/api/transactions/search?page="
                       ++ toString page ++ lit "&limit=" ++ L
        end)
  /\ (exists c,
        Hook.called (Hook.fetchTransactions page query h) = Hook.called h ++ [c]
        /\ Hook.params c = [(lit "page", toString page); (lit "limit", L')]
        /\ match trim query with
           | [] =>
               Hook.method c = Hook.GET /\ Hook.body c = None
               /\ Hook.path c = lit "/api/transactions"
           | q =>
               Hook.method c = Hook.POST /\ Hook.body c = Some q
               /\ Hook.path c = lit "/api/transactions/search"
           end).
Proof.
  cbn zeta. split.
  - exists (request page query (limit (pagination s))).
    split; [reflexivity|].
    unfold request. destruct (trim query); cbn; repeat split.
  - exists (Hook.call page query (Hook.limit (Hook.pagination h))).
    split; [reflexivity|].
    unfold Hook.call. destruct (trim query); cbn; repeat split.
Qed.

(** C10: a top-up, or a transaction whose sender and receiver accounts are
    the same, is incoming whoever the current user is. *)
Theorem C10_topup_or_self_is_incoming (transaction : Transaction)
    (currentUser : jsstring) :
  is_topup transaction = true
  \/ account (sender transaction) = account (receiver transaction) ->
  isIncomingTransaction transaction currentUser = true.
Proof.
  unfold isIncomingTransaction. intros [-> | ->].
  - now rewrite orb_true_r.
  - rewrite streq_refl. now rewrite orb_true_r.
Qed.

Lemma C10_topup_or_self_is_incoming_witness :
  isIncomingTransaction
    {| id := lit "t1";
       sender := {| name := lit "Bank"; account := lit "bank" |};
       receiver := {| name := lit "Abebe"; account := lit "abebe" |};
       currency := lit "ETB"; cause := lit "top-up";
       is_topup := true; is_outgoing_transfer := false |}
    (lit "someone_else") = true.
Proof.
  apply C10_topup_or_self_is_incoming. left. reflexivity.
Defined.

End DashboardProperties.

(** ** The pagination invariant along runs of the dashboard *)

Section PaginationInvariant.

Import Dashboard.

Lemma invariantb_spec (p : PaginationState) :
  invariantb p = true <-> invariant p.
Proof.
  unfold invariantb, invariant. rewrite andb_true_iff, orb_true_iff.
  rewrite Z.leb_le, Z.eqb_eq. split.
  - intros [Hceil Hpage]. split; [lia|].
    destruct (page p) as [|n]; [discriminate|].
    exists n. split; [reflexivity|].
    apply andb_true_iff in Hpage. rewrite !Z.leb_le in Hpage. exact Hpage.
  - intros [Hceil (n & -> & Hn)]. split.
    + destruct (Z.leb_spec (limit p) 0); [now left | right; apply Hceil; lia].
    + apply andb_true_iff. now rewrite !Z.leb_le.
Qed.

Lemma invariant_withPage (p : PaginationState) (n : Z) :
  invariant p -> 1 <= n <= Z.max (totalPages p) 1 ->
  invariant (withPage p (Num n)).
Proof.
  intros [Hceil _] Hn. split; [exact Hceil|].
  exists n. split; [reflexivity | exact Hn].
Qed.

Lemma pagination_fetchTransactions (page : number) (query : jsstring)
    (s : State) :
  pagination (fetchTransactions page query s) = pagination s.
Proof. reflexivity. Qed.

(** Whatever integer page is asked for, [handlePageChange] keeps the
    invariant: it only accepts a page within [1, totalPages]. *)
Lemma handlePageChange_invariant (s : State) (newPage : Z) :
  invariant (pagination s) ->
  invariant (pagination (handlePageChange (Num newPage) s)).
Proof.
  intros Hinv. unfold handlePageChange, gt, lt.
  destruct (Z.ltb_spec newPage 1); [exact Hinv|].
  destruct (Z.ltb_spec (totalPages (pagination s)) newPage); [exact Hinv|].
  destruct (isLoading s); [exact Hinv|].
  cbn. apply invariant_withPage; [exact Hinv | lia].
Qed.

Lemma searchEffect_keeps (s : State) :
  invariant (pagination s) ->
  invariant (pagination (searchEffect s))
  /\ limit (pagination (searchEffect s)) = limit (pagination s).
Proof.
  intros Hinv. unfold searchEffect.
  destruct (negb (streq (debouncedSearchQuery s) (searchQuery s)));
    [now split|].
  cbn. split; [|reflexivity]. apply invariant_withPage; [exact Hinv | lia].
Qed.

Lemma limit_handlePageChange (x : number) (s : State) :
  limit (pagination (handlePageChange x s)) = limit (pagination s).
Proof. unfold handlePageChange. now destruct (_ || _). Qed.

(** Handlers and continuations keep the invariant and the page size 10, as
    long as a decoded response is in order. *)
Lemma step_input_keeps (s : State) (i : Input) :
  invariant (pagination s) -> limit (pagination s) = 10 -> responseOk s i ->
  invariant (pagination (step s (eventOf i)))
  /\ limit (pagination (step s (eventOf i))) = 10.
Proof.
  intros Hinv Hlim Hok. destruct i as [v|v| | |p| |o]; cbn [eventOf step].
  - now split.
  - now split.
  - rewrite limit_handlePageChange. split; [|exact Hlim].
    destruct Hinv as [Hceil (n & Hn & Hr)]. rewrite Hn. cbn [plus].
    apply handlePageChange_invariant. split; [exact Hceil | now exists n].
  - rewrite limit_handlePageChange. split; [|exact Hlim].
    destruct Hinv as [Hceil (n & Hn & Hr)]. rewrite Hn. cbn [plus].
    apply handlePageChange_invariant. split; [exact Hceil | now exists n].
  - rewrite limit_handlePageChange. split; [|exact Hlim].
    now apply handlePageChange_invariant.
  - now split.
  - unfold fetchSettled. cbn [responseOk] in Hok.
    destruct (received o) as [d|]; cbn.
    + destruct Hok as [Hd Hl]. split; [exact Hd | congruence].
    + split; [apply invariantb_spec|]; reflexivity.
Qed.

Lemma commit_keeps (s : State) (i : Input) :
  invariant (pagination s) -> limit (pagination s) = 10 -> responseOk s i ->
  invariant (pagination (commit s i)) /\ limit (pagination (commit s i)) = 10.
Proof.
  intros Hinv Hlim Hok.
  destruct (step_input_keeps s i Hinv Hlim Hok) as [Hinv1 Hlim1].
  unfold commit, effectsAfter. rewrite Hlim1, Hlim. cbn [Z.eqb Pos.eqb negb orb].
  destruct (_ || _); [|now split].
  destruct (searchEffect_keeps _ Hinv1) as [Hinv2 Hlim2].
  split; [exact Hinv2 | congruence].
Qed.

Lemma committed_keeps (inputs : list Input) :
  forall s, invariant (pagination s) -> limit (pagination s) = 10 ->
            responsesOk s inputs ->
            invariant (pagination (fold_left commit inputs s)).
Proof.
  induction inputs as [|i inputs IH]; intros s Hinv Hlim Hok; [exact Hinv|].
  destruct Hok as [Hi Hrest]. cbn [fold_left].
  destruct (commit_keeps s i Hinv Hlim Hi) as [Hinv1 Hlim1].
  now apply IH.
Qed.

(** The first render ends on page 1 of the empty pagination, whatever the
    URL is. *)
Lemma pagination_firstRender (loc : URLSearchParams) :
  pagination (firstRender loc)
  = {| page := Num 1; limit := 10; total := 0; totalPages := 0 |}.
Proof. reflexivity. Qed.

(** C9 fails as stated, in states the dashboard commits. (1) Opened with
    [?p=7], the first render requests page 7 and page 1; when the answer for
    page 7 arrives last, its pagination block is stored as it comes: page 7
    of 3. (2) Each block may satisfy the invariant and the state still
    break it: on page 3 of 3, with a letter typed and the debounce pending,
    a late answer with page size 20 (page 1 of 2) makes [fetchTransactions]
    a new function, the mount effect runs again and stores page 3 from the
    URL next to [totalPages = 2]. *)
Lemma C9_counterexample :
  map url (fetched (firstRender [(lit "p", lit "7")]))
  = [lit "http://localhost:3001/api/transactions?page=7&limit=10";
     lit "http://localhost:3001/api/transactions?page=1&limit=10"]
  /\ pagination
       (committed [(lit "p", lit "7")]
          [Settles (Responded 200 (Some sampleResponse));
           Settles (Responded 200 (Some sampleResponse7))])
     = {| page := Num 7; limit := 10; total := 25; totalPages := 3 |}
  /\ ~ invariant
       (pagination
          (committed [(lit "p", lit "7")]
             [Settles (Responded 200 (Some sampleResponse));
              Settles (Responded 200 (Some sampleResponse7))]))
  /\ invariant (pagination_of sampleResponse)
  /\ invariant (pagination_of sampleResponse3)
  /\ invariant (pagination_of sampleResponse20)
  /\ pagination
       (committed []
          [Settles (Responded 200 (Some sampleResponse));
           PressPage 3;
           Settles (Responded 200 (Some sampleResponse3));
           Types (lit "a");
           Settles (Responded 200 (Some sampleResponse20))])
     = {| page := Num 3; limit := 20; total := 25; totalPages := 2 |}
  /\ ~ invariant
       (pagination
          (committed []
             [Settles (Responded 200 (Some sampleResponse));
              PressPage 3;
              Settles (Responded 200 (Some sampleResponse3));
              Types (lit "a");
              Settles (Responded 200 (Some sampleResponse20))])).
Proof.
  split; [reflexivity|]. split; [reflexivity|].
  split; [intros H; apply invariantb_spec in H; discriminate H|].
  split; [apply invariantb_spec; reflexivity|].
  split; [apply invariantb_spec; reflexivity|].
  split; [apply invariantb_spec; reflexivity|].
  split; [reflexivity|].
  intros H; apply invariantb_spec in H; discriminate H.
Qed.

(** C9, amended: in every state the dashboard commits, from the first
    render for any URL, deep links included, through typing, debounce
    updates, page buttons, retries, failed fetches and fetch responses,
    [totalPages = ceil(total / limit)] when [limit > 0] and [page] is an
    integer within [1, max(totalPages, 1)], provided every decoded response
    carries a pagination block that satisfies this invariant itself and has
    the page size in use. *)
Theorem C9_invariant_on_committed_runs (loc : URLSearchParams)
    (inputs : list Input) :
  responsesOk (firstRender loc) inputs ->
  invariant (pagination (committed loc inputs)).
Proof.
  apply committed_keeps.
  - rewrite pagination_firstRender. apply invariantb_spec. reflexivity.
  - now rewrite pagination_firstRender.
Qed.

Lemma C9_invariant_on_committed_runs_witness :
  invariant
    (pagination
       (committed [(lit "p", lit "7")]
          [Settles (Responded 200 (Some sampleResponse));
           PressPage 3;
           Settles (Responded 200 (Some sampleResponse3));
           Types (lit "a"); DebounceFires (lit "a");
           Settles (Responded 500 None);
           PressRetry;
           Settles (Responded 200 (Some sampleResponse));
           PressNext; PressPrevious])).
Proof.
  apply (C9_invariant_on_committed_runs [(lit "p", lit "7")]).
  cbn [responsesOk responseOk].
  repeat split; try (apply invariantb_spec; reflexivity).
Defined.

End PaginationInvariant.

(** ** useDebounce *)

Section DebounceProperties.

Import Debounce.


Lemma timeout_inv (now : nat) (h h' : Hook) :
  timeout now h = Some h' ->
  exists due v,
    handler h = Some (due, v) /\ (due <= now)%nat
    /\ h' = {| value := value h; delay := delay h; debouncedValue := v;
               handler := None |}.
Proof.
  unfold timeout. destruct (handler h) as [[due v]|]; [|discriminate].
  destruct (Nat.leb_spec due now); [|discriminate].
  intros [= <-]. now exists due, v.
Qed.









Lemma stepRun_change_inv (r r1 : Run) (now : nat) (v : jsstring) :
  stepRun r (now, Change v) = Some r1 ->
  (clock r <= now)%nat
  /\ r1 = {| hook := render now v (delay (hook r)) (hook r); clock := now;
             emitted := emitted r |}.
Proof.
  unfold stepRun. destruct (Nat.ltb_spec now (clock r)); [discriminate|].
  intros [= <-]. now split.
Qed.

Lemma stepRun_timeout_inv (r r1 : Run) (now : nat) :
  stepRun r (now, Timeout) = Some r1 ->
  (clock r <= now)%nat
  /\ exists due v,
       handler (hook r) = Some (due, v) /\ (due <= now)%nat
       /\ r1 = {| hook := {| value := value (hook r); delay := delay (hook r);
                             debouncedValue := v; handler := None |};
                  clock := now;
                  emitted := emitted r ++ [(now, v)] |}.
Proof.
  unfold stepRun. destruct (Nat.ltb_spec now (clock r)); [discriminate|].
  destruct (timeout now (hook r)) as [h|] eqn:Ht; [|discriminate].
  intros [= <-]. split; [assumption|].
  apply timeout_inv in Ht as (due & v & Hpend & Hdue & ->).
  now exists due, v.
Qed.









End DebounceProperties.

(** ** More on the page window *)

Section PageWindowMore.

Import Pagination.

Lemma spec_start_ge_1 (currentPage totalPages : Z) :
  1 <= spec_start currentPage totalPages.
Proof.
  unfold spec_start, spec_start0.
  destruct (_ <? 5); lia.
Qed.

Lemma spec_end_le_total (currentPage totalPages : Z) :
  spec_end currentPage totalPages <= totalPages.
Proof. unfold spec_end. lia. Qed.

(** The two ends of the window in closed form. *)
Lemma spec_closed_form (currentPage totalPages : Z) :
  spec_start currentPage totalPages
  = Z.max 1 (Z.min (currentPage - 2) (totalPages - 4))
  /\ spec_end currentPage totalPages
     = Z.min totalPages (Z.max 5 (currentPage + 2)).
Proof.
  unfold spec_start, spec_end, spec_start0. change (5 / 2) with 2.
  destruct (Z.ltb_spec
              (Z.min totalPages (Z.max 1 (currentPage - 2) + 4)
               - Z.max 1 (currentPage - 2) + 1) 5); lia.
Qed.

(** X1: every page number the component shows lies between 1 and
    [totalPages], whatever the current page is. *)
Theorem X1_window_within_bounds (currentPage totalPages p : Z) :
  In p (visiblePages currentPage totalPages) -> 1 <= p <= totalPages.
Proof.
  rewrite visiblePages_interval, In_interval. intros H.
  pose proof (spec_start_ge_1 currentPage totalPages).
  pose proof (spec_end_le_total currentPage totalPages). lia.
Qed.

Lemma X1_window_within_bounds_witness :
  In 2 (visiblePages 7 3) /\ 1 <= 2 <= 3.
Proof.
  assert (H : In 2 (visiblePages 7 3)) by (vm_compute; right; left; reflexivity).
  split; [exact H | exact (X1_window_within_bounds 7 3 2 H)].
Defined.

(** X2: with [totalPages >= 0] the component shows exactly
    [min(5, totalPages)] page numbers, for every current page, in range or
    not. *)
Theorem X2_window_length (currentPage totalPages : Z) :
  0 <= totalPages ->
  Z.of_nat (List.length (visiblePages currentPage totalPages))
  = Z.min 5 totalPages.
Proof.
  intros Htp. rewrite visiblePages_interval, length_interval.
  destruct (spec_closed_form currentPage totalPages) as [-> ->]. lia.
Qed.

Lemma X2_window_length_witness :
  Z.of_nat (List.length (visiblePages 7 3)) = Z.min 5 3.
Proof. apply (X2_window_length 7 3). lia. Defined.

(** X3: the current page is among the page numbers shown exactly when it
    lies between 1 and [totalPages]. *)
Theorem X3_current_page_shown_iff (currentPage totalPages : Z) :
  In currentPage (visiblePages currentPage totalPages)
  <-> 1 <= currentPage <= totalPages.
Proof.
  rewrite visiblePages_interval, In_interval.
  destruct (spec_closed_form currentPage totalPages) as [-> ->]. lia.
Qed.

(** X4: away from both ends (3 <= currentPage <= totalPages - 2) the window
    is the current page with two pages on either side. *)
Theorem X4_window_centred (currentPage totalPages : Z) :
  3 <= currentPage <= totalPages - 2 ->
  visiblePages currentPage totalPages
  = [currentPage - 2; currentPage - 1; currentPage; currentPage + 1;
     currentPage + 2].
Proof.
  intros H. rewrite visiblePages_interval.
  destruct (spec_closed_form currentPage totalPages) as [-> ->].
  replace (Z.max 1 (Z.min (currentPage - 2) (totalPages - 4)))
    with (currentPage - 2) by lia.
  replace (Z.min totalPages (Z.max 5 (currentPage + 2)))
    with (currentPage - 2 + 4) by lia.
  unfold interval.
  replace (Z.to_nat (currentPage - 2 + 4 - (currentPage - 2) + 1))
    with 5%nat by lia.
  cbn. repeat (f_equal; try lia).
Qed.

Lemma X4_window_centred_witness :
  visiblePages 7 12 = [7 - 2; 7 - 1; 7; 7 + 1; 7 + 2].
Proof. apply (X4_window_centred 7 12). lia. Defined.

(** X5: on the first three pages, and for any smaller current page, the
    window starts at page 1: it is [1 .. min(totalPages, 5)]. *)
Theorem X5_window_at_start (currentPage totalPages : Z) :
  currentPage <= 3 ->
  visiblePages currentPage totalPages = interval 1 (Z.min totalPages 5).
Proof.
  intros H. rewrite visiblePages_interval.
  destruct (spec_closed_form currentPage totalPages) as [-> ->].
  f_equal; lia.
Qed.

Lemma X5_window_at_start_witness :
  visiblePages 2 12 = interval 1 (Z.min 12 5).
Proof. apply (X5_window_at_start 2 12). lia. Defined.

(** X6: on the last three pages, and for any current page beyond the last
    one, the window ends at the last page: it is
    [max(1, totalPages - 4) .. totalPages]. *)
Theorem X6_window_at_end (currentPage totalPages : Z) :
  totalPages - 2 <= currentPage ->
  visiblePages currentPage totalPages
  = interval (Z.max 1 (totalPages - 4)) totalPages.
Proof.
  intros H. rewrite visiblePages_interval.
  destruct (spec_closed_form currentPage totalPages) as [-> ->].
  f_equal; lia.
Qed.

Lemma X6_window_at_end_witness :
  visiblePages 7 3 = interval (Z.max 1 (3 - 4)) 3.
Proof. apply (X6_window_at_end 7 3). lia. Defined.

End PageWindowMore.

(** ** The buttons of the Pagination component *)

Section Buttons.

Import Pagination Dashboard.

Lemma handlePageChange_loading (x : number) (s : State) :
  isLoading s = true -> handlePageChange x s = s.
Proof. intros H. unfold handlePageChange. now rewrite H, orb_true_r. Qed.

(** A page change is either refused, leaving the state as it is, or it
    starts a fetch: one more request, and [isLoading] set. *)
Lemma handlePageChange_cases (x : number) (s : State) :
  handlePageChange x s = s
  \/ (isLoading (handlePageChange x s) = true
      /\ fetched (handlePageChange x s)
         = fetched s ++ [request x (debouncedSearchQuery s)
                                 (limit (pagination s))]).
Proof.
  unfold handlePageChange.
  destruct (lt x (Num 1) || gt x (Num (totalPages (pagination s)))
            || isLoading s); [now left | right; now split].
Qed.

Lemma handlePageChange_accepts (s : State) (p : Z) :
  1 <= p <= totalPages (pagination s) -> isLoading s = false ->
  handlePageChange (Num p) s
  = fetchTransactions (Num p) (debouncedSearchQuery s)
      (replaceParam (lit "p") (toString (Num p))
         (setPagination (fun prev => withPage prev (Num p)) s)).
Proof.
  intros Hp Hload. unfold handlePageChange, gt, lt.
  destruct (Z.ltb_spec p 1); [lia|].
  destruct (Z.ltb_spec (totalPages (pagination s)) p); [lia|].
  now rewrite Hload.
Qed.

(** X7: the guard of [handlePageChange] agrees with the [disabled] flags of
    the Previous and Next buttons: whenever such a button is disabled, the
    page change it stands for leaves the state unchanged. *)
Theorem X7_disabled_buttons_do_nothing (s : State) :
  (previousDisabled (page (pagination s)) (isLoading s) = true ->
   step s ClickPrevious = s)
  /\ (nextDisabled (page (pagination s)) (totalPages (pagination s))
                   (isLoading s) = true ->
      step s ClickNext = s).
Proof.
  unfold previousDisabled, nextDisabled, ge, le. cbn [step].
  split; intros H; apply orb_true_iff in H as [H|H];
    try (now apply handlePageChange_loading);
    destruct (page (pagination s)) as [|n]; try discriminate H;
    apply Z.leb_le in H; unfold handlePageChange, plus, gt; cbn [lt].
  - destruct (Z.ltb_spec (n + -1) 1); [reflexivity | lia].
  - destruct (Z.ltb_spec (totalPages (pagination s)) (n + 1)); [|lia].
    now destruct (n + 1 <? 1).
Qed.

Lemma X7_disabled_buttons_do_nothing_witness :
  step sampleLoaded ClickPrevious = sampleLoaded.
Proof.
  apply (X7_disabled_buttons_do_nothing sampleLoaded). reflexivity.
Defined.

(** X8: in a state that satisfies the pagination invariant, an enabled
    Previous button moves to the page before and an enabled Next button to
    the page after. *)
Theorem X8_enabled_buttons_move_one_page (s : State) :
  invariant (pagination s) ->
  (previousDisabled (page (pagination s)) (isLoading s) = false ->
   page (pagination (step s ClickPrevious)) = plus (page (pagination s)) (-1))
  /\ (nextDisabled (page (pagination s)) (totalPages (pagination s))
                   (isLoading s) = false ->
      page (pagination (step s ClickNext)) = plus (page (pagination s)) 1).
Proof.
  intros [_ (n & Hn & Hr)].
  unfold previousDisabled, nextDisabled, ge, le. cbn [step]. rewrite Hn.
  cbn [plus].
  split; intros H; apply orb_false_iff in H as [H Hload];
    apply Z.leb_gt in H; rewrite handlePageChange_accepts by (try lia; assumption);
    reflexivity.
Qed.

Lemma X8_enabled_buttons_move_one_page_witness :
  page (pagination (step sampleLoaded ClickNext)) = Num 2.
Proof.
  apply (X8_enabled_buttons_move_one_page sampleLoaded).
  - apply invariantb_spec. reflexivity.
  - reflexivity.
Defined.

(** X9: while nothing is loading, every numbered button of the window is
    accepted: pressing page [p] makes [p] the current page and issues the
    request for it, whatever the current page was. *)
Theorem X9_numbered_buttons_are_accepted (s : State) (currentPage p : Z) :
  In p (visiblePages currentPage (totalPages (pagination s))) ->
  isLoading s = false ->
  page (pagination (step s (ClickPage p))) = Num p
  /\ fetched (step s (ClickPage p))
     = fetched s ++ [request (Num p) (debouncedSearchQuery s)
                             (limit (pagination s))].
Proof.
  intros Hin Hload. cbn [step].
  rewrite visiblePages_interval, In_interval in Hin.
  pose proof (spec_start_ge_1 currentPage (totalPages (pagination s))).
  pose proof (spec_end_le_total currentPage (totalPages (pagination s))).
  rewrite handlePageChange_accepts by (try lia; assumption).
  now split.
Qed.

Lemma X9_numbered_buttons_are_accepted_witness :
  page (pagination (step sampleLoaded (ClickPage 3))) = Num 3.
Proof.
  apply (X9_numbered_buttons_are_accepted sampleLoaded 1 3).
  - vm_compute. right. right. left. reflexivity.
  - reflexivity.
Defined.

Lemma clicks_while_loading (trace : list Event) :
  forall s, isLoading s = true -> forallb isClick trace = true ->
            run s trace = s.
Proof.
  induction trace as [|e trace IH]; intros s Hload Hclicks; [reflexivity|].
  cbn [forallb] in Hclicks. apply andb_true_iff in Hclicks as [He Hrest].
  cbn [run fold_left].
  assert (Hstep : step s e = s)
    by (destruct e; try discriminate He; now apply handlePageChange_loading).
  rewrite Hstep. now apply IH.
Qed.

(** X10: however many page buttons are pressed in a row, at most one request
    is issued: once a press is accepted the dashboard is loading, and every
    further press is refused until the request settles. *)
Theorem X10_clicks_issue_at_most_one_request (s : State)
    (trace : list Event) :
  forallb isClick trace = true ->
  (List.length (fetched (run s trace)) <= S (List.length (fetched s)))%nat.
Proof.
  revert s. induction trace as [|e trace IH]; intros s Hclicks;
    [cbn; lia|].
  cbn [forallb] in Hclicks. apply andb_true_iff in Hclicks as [He Hrest].
  cbn [run fold_left].
  assert (Hcases : step s e = s
                   \/ (isLoading (step s e) = true
                       /\ List.length (fetched (step s e))
                          = S (List.length (fetched s)))).
  { destruct e; try discriminate He; cbn [step];
      match goal with
      | |- context [handlePageChange ?x s] =>
          destruct (handlePageChange_cases x s) as [E | [Hl Hf]];
            [left; exact E | right; split; [exact Hl|]];
            rewrite Hf, length_app; cbn; lia
      end. }
  destruct Hcases as [E | [Hload Hlen]].
  - rewrite E. now apply IH.
  - change (fold_left step trace (step s e)) with (run (step s e) trace).
    rewrite (clicks_while_loading trace _ Hload Hrest). lia.
Qed.

Lemma X10_clicks_issue_at_most_one_request_witness :
  (List.length (fetched (run sampleLoaded [ClickPage 3; ClickNext; ClickPage 2]))
   <= S (List.length (fetched sampleLoaded)))%nat.
Proof.
  apply (X10_clicks_issue_at_most_one_request sampleLoaded). reflexivity.
Defined.

End Buttons.

(** ** Fetching, retrying and searching *)

Section FetchCycle.

Import Pagination Dashboard.

Lemma received_failed (o : FetchOutcome) :
  failed o = true -> received o = None.
Proof.
  destruct o as [|status json]; [reflexivity|].
  cbn. now intros ->.
Qed.

Lemma fetchSettled_failed (o : FetchOutcome) (s : State) :
  received o = None -> fetchSettled o s = fetchSettled Rejected s.
Proof. intros H. unfold fetchSettled. now rewrite H. Qed.

(** X11: a response whose body cannot be decoded leaves, whatever its
    status, the same state as a network error. *)
Theorem X11_undecodable_body_is_a_failure (status : Z) (s : State) :
  fetchSettled (Responded status None) s = fetchSettled Rejected s.
Proof.
  apply fetchSettled_failed. cbn. now destruct (ok status).
Qed.

(** X12: after a failed fetch the retry button asks for page 1 with limit 10
    and the debounced query, whichever page had failed; the URL keeps the
    page it had, and the error panel gives way to the spinner. *)
Theorem X12_retry_after_failure_asks_for_page_1 (o : FetchOutcome)
    (s : State) :
  failed o = true ->
  let s' := handleRetry (fetchSettled o s) in
  fetched s'
  = fetched s ++ [request (Num 1) (debouncedSearchQuery s) 10]
  /\ location s' = location s
  /\ content (fetchSettled o s) = ShowError errorMessage
  /\ content s' = ShowSpinner.
Proof.
  intros Hfail. cbn zeta.
  rewrite (fetchSettled_failed o s (received_failed o Hfail)).
  repeat split.
Qed.

Lemma X12_retry_after_failure_asks_for_page_1_witness :
  map url (fetched (handleRetry
                      (fetchSettled (Responded 503 None)
                         (handlePageChange (Num 3) sampleLoaded))))
  = map url (fetched (handlePageChange (Num 3) sampleLoaded))
    ++ [lit "http://localhost:3001/api/transactions?page=1&limit=10"].
Proof.
  destruct (X12_retry_after_failure_asks_for_page_1 (Responded 503 None)
              (handlePageChange (Num 3) sampleLoaded) eq_refl) as [H _].
  rewrite H, map_app. reflexivity.
Defined.

(** X13: a fetch answered by a decodable 2xx response ends with no error,
    even if one was shown before, not loading, the rows and the pagination
    block of the response, and the URL untouched; exactly one request was
    issued. *)
Theorem X13_successful_fetch (status : Z) (d : PaginatedResponse)
    (page : number) (query : jsstring) (s : State) :
  ok status = true ->
  let s' := fetchSettled (Responded status (Some d))
              (fetchTransactions page query s) in
  error s' = None
  /\ isLoading s' = false
  /\ transactions s' = data d
  /\ pagination s' = pagination_of d
  /\ location s' = location s
  /\ fetched s' = fetched s ++ [request page query (limit (pagination s))].
Proof.
  intros Hok. unfold fetchSettled. cbn [received]. rewrite Hok.
  cbn. repeat split.
Qed.

Lemma X13_successful_fetch_witness :
  error (fetchSettled (Responded 200 (Some sampleResponse))
           (fetchTransactions (Num 1) []
              (fetchSettled Rejected sampleLoaded))) = None.
Proof.
  apply (X13_successful_fetch 200 sampleResponse (Num 1) []
           (fetchSettled Rejected sampleLoaded)).
  reflexivity.
Defined.

(** X14: once the debounced query has caught up with the typed one, the
    search effect goes back to page 1: it keeps [limit], [total] and
    [totalPages], writes [p=1] to the URL and requests page 1 with the
    debounced query. It does so whether or not a fetch is in flight. *)
Theorem X14_search_resets_to_page_1 (s : State) :
  debouncedSearchQuery s = searchQuery s ->
  let s' := searchEffect s in
  pagination s' = withPage (pagination s) (Num 1)
  /\ get (lit "p") (location s') = Some (lit "1")
  /\ fetched s'
     = fetched s ++ [request (Num 1) (debouncedSearchQuery s)
                             (limit (pagination s))]
  /\ isLoading s' = true.
Proof.
  intros Heq.
  assert (E : streq (debouncedSearchQuery s) (searchQuery s) = true)
    by (rewrite Heq; apply streq_refl).
  unfold searchEffect. rewrite E. cbn.
  split; [reflexivity|]. split; [apply (get_set (lit "p") (lit "1"))|].
  split; reflexivity.
Qed.

Lemma X14_search_resets_to_page_1_witness :
  page (pagination (searchEffect (handlePageChange (Num 3) sampleLoaded)))
  = Num 1
  /\ List.length (fetched (searchEffect (handlePageChange (Num 3) sampleLoaded)))
     = 4%nat.
Proof.
  destruct (X14_search_resets_to_page_1
              (handlePageChange (Num 3) sampleLoaded) eq_refl)
    as (Hp & _ & Hf & _).
  rewrite Hp, Hf. split; reflexivity.
Defined.

(** X15: while the debounced query still differs from the typed one, the
    search effect does nothing. *)
Theorem X15_search_waits_for_debounce (s : State) :
  debouncedSearchQuery s <> searchQuery s -> searchEffect s = s.
Proof.
  intros Hne. unfold searchEffect.
  destruct (streq (debouncedSearchQuery s) (searchQuery s)) eqn:E;
    [|reflexivity].
  apply streq_eq in E. contradiction.
Qed.

Lemma X15_search_waits_for_debounce_witness :
  searchEffect (setSearchQuery (lit "abc") sampleLoaded)
  = setSearchQuery (lit "abc") sampleLoaded.
Proof.
  apply (X15_search_waits_for_debounce (setSearchQuery (lit "abc") sampleLoaded)).
  discriminate.
Defined.

(** X16: on the first render, where the mount effect and then the search
    effect run, the dashboard issues two requests whatever the URL is: one
    for the page the URL gives and one for page 1; it ends on page 1 with
    [p=1] in the URL. *)
Theorem X16_first_render (loc : URLSearchParams) :
  let s := run (initialState loc) [MountEffect; SearchEffect] in
  fetched s = [request (initialPage loc) [] 10; request (Num 1) [] 10]
  /\ map method (fetched s) = [GET; GET]
  /\ page (pagination s) = Num 1
  /\ get (lit "p") (location s) = Some (lit "1").
Proof.
  cbn. split; [reflexivity|]. split; [reflexivity|]. split; [reflexivity|].
  apply (get_set (lit "p") (lit "1")).
Qed.

(** X20: on every page of rows, the counters of incoming and of outgoing
    transactions add up to the number of rows. *)
Theorem X20_counts_add_up (ts : list Transaction) :
  (incomingCount ts + outgoingCount ts = List.length ts)%nat.
Proof.
  unfold incomingCount, outgoingCount.
  induction ts as [|t ts IH]; [reflexivity|].
  cbn [filter].
  destruct (isIncomingTransaction t CURRENT_USER); cbn [negb List.length]; lia.
Qed.

(** X21: when the pagination bar is on screen nothing is loading, so none
    of its numbered buttons is disabled; it offers at least two of them,
    and each one, when pressed, becomes the current page. *)
Theorem X21_pagination_bar_works (s : State)
    (rows : list (Transaction * bool)) :
  content s = ShowRows rows true ->
  pageDisabled (isLoading s) = false
  /\ forall currentPage,
       (2 <= List.length
               (visiblePages currentPage (totalPages (pagination s))))%nat
       /\ forall p,
            In p (visiblePages currentPage (totalPages (pagination s))) ->
            page (pagination (step s (ClickPage p))) = Num p.
Proof.
  intros Hc.
  assert (H : isLoading s = false /\ 1 < totalPages (pagination s)).
  { unfold content, listing in Hc.
    destruct (error s) as [m|]; [destruct (truthy m); [discriminate|]|];
      destruct (isLoading s); try discriminate;
      destruct (transactions s); try discriminate;
      injection Hc as _ Hc; apply Z.ltb_lt in Hc; now split. }
  destruct H as [Hload Htp]. split; [exact Hload|].
  intros currentPage. split.
  - rewrite visiblePages_interval, length_interval.
    destruct (spec_closed_form currentPage (totalPages (pagination s)))
      as [-> ->]. lia.
  - intros p Hin. cbn [step].
    rewrite visiblePages_interval, In_interval in Hin.
    pose proof (spec_start_ge_1 currentPage (totalPages (pagination s))).
    pose proof (spec_end_le_total currentPage (totalPages (pagination s))).
    now rewrite handlePageChange_accepts by (try lia; assumption).
Qed.

Lemma X21_pagination_bar_works_witness :
  pageDisabled (isLoading sampleListed) = false
  /\ page (pagination (step sampleListed (ClickPage 2))) = Num 2.
Proof.
  destruct (X21_pagination_bar_works sampleListed
              [(sampleRow, true)] eq_refl) as [Hd Hw].
  split; [exact Hd|].
  apply (Hw 1). vm_compute. right. left. reflexivity.
Defined.

End FetchCycle.

(** ** The page parameter of the URL *)

Section PageParameter.

Import Dashboard.

(** One digit of a numeral: [digitsOf (D3 d)] is [51 :: digitsOf d]. *)
Ltac digits_step :=
  match goal with
  | |- context [digitsOf (?C ?d)] =>
      let c := eval vm_compute in (hd 0%N (digitsOf (C Decimal.Nil))) in
      change (digitsOf (C d)) with (c :: digitsOf d)
  end.

Lemma trimStart_app_blank (ws s : jsstring) :
  forallb isWhiteSpace ws = true -> trimStart (ws ++ s) = trimStart s.
Proof.
  induction ws as [|c ws IH]; [reflexivity|].
  cbn [forallb app trimStart]. intros H.
  apply andb_true_iff in H as [-> Hws]. auto.
Qed.

Lemma leadingDigits_digitsOf (d : Decimal.uint) (rest : jsstring) :
  leadingDigits (digitsOf d ++ rest) = digitsOf d ++ leadingDigits rest.
Proof.
  induction d; [reflexivity| ..]; repeat digits_step;
    cbn [app leadingDigits];
    match goal with
    | |- context [isDigit ?c] => change (isDigit c) with true
    end;
    cbn iota; now rewrite IHd.
Qed.

Lemma fold_digitsOf (d : Decimal.uint) :
  forall acc,
    fold_left (fun a c => a * 10 + Z.of_N (c - 48)) (digitsOf d) acc
    = uintValue d acc.
Proof.
  induction d; intros acc; [reflexivity| ..]; digits_step;
    cbn [fold_left uintValue]; rewrite IHd; reflexivity.
Qed.

Lemma uintValue_pos (d : Decimal.uint) :
  forall p, uintValue d (Z.pos p) = Z.pos (Pos.of_uint_acc d p).
Proof.
  induction d; intros p; [reflexivity| ..]; cbn [uintValue Pos.of_uint_acc];
    rewrite <- IHd; f_equal; lia.
Qed.

Lemma uintValue_0 (d : Decimal.uint) :
  uintValue d 0 = Z.of_N (Pos.of_uint d).
Proof.
  induction d; [reflexivity | exact IHd | ..];
    cbn [uintValue Pos.of_uint Z.of_N]; rewrite <- uintValue_pos; reflexivity.
Qed.

Lemma digitsOf_head (d : Decimal.uint) :
  d <> Decimal.Nil ->
  exists c tl, digitsOf d = c :: tl /\ isDigit c = true.
Proof.
  destruct d; [contradiction| ..]; intros _; digits_step;
    eexists; eexists; (split; [reflexivity | reflexivity]).
Qed.

Lemma isDigit_cases (c : code_unit) :
  isDigit c = true ->
  (c = 48 \/ c = 49 \/ c = 50 \/ c = 51 \/ c = 52 \/ c = 53 \/ c = 54
   \/ c = 55 \/ c = 56 \/ c = 57)%N.
Proof.
  unfold isDigit. rewrite andb_true_iff, !N.leb_le. lia.
Qed.

(** [parseInt] on text that starts, after white space, with a digit, or with
    a minus sign. *)
Lemma parseInt_unsigned (ws : jsstring) (c : code_unit) (tl : jsstring) :
  forallb isWhiteSpace ws = true -> isDigit c = true ->
  parseInt (ws ++ c :: tl)
  = match leadingDigits (c :: tl) with
    | [] => NaN
    | ds => Num (1 * digitsValue ds)
    end.
Proof.
  intros Hws Hc. unfold parseInt. rewrite (trimStart_app_blank _ _ Hws).
  destruct (isDigit_cases c Hc) as [-> | [-> | [-> | [-> | [-> | [-> | [->
    | [-> | [-> | ->]]]]]]]]]; reflexivity.
Qed.

Lemma parseInt_negative (ws tl : jsstring) :
  forallb isWhiteSpace ws = true ->
  parseInt (ws ++ 45%N :: tl)
  = match leadingDigits tl with
    | [] => NaN
    | ds => Num (-1 * digitsValue ds)
    end.
Proof.
  intros Hws. unfold parseInt. now rewrite (trimStart_app_blank _ _ Hws).
Qed.

Lemma parseInt_digitsOf (d : Decimal.uint) (ws rest : jsstring) :
  d <> Decimal.Nil -> forallb isWhiteSpace ws = true ->
  leadingDigits rest = [] ->
  parseInt (ws ++ digitsOf d ++ rest) = Num (uintValue d 0)
  /\ parseInt (ws ++ 45%N :: digitsOf d ++ rest) = Num (- uintValue d 0).
Proof.
  intros Hd Hws Hrest.
  assert (Hlead : leadingDigits (digitsOf d ++ rest) = digitsOf d)
    by (rewrite leadingDigits_digitsOf, Hrest; apply app_nil_r).
  destruct (digitsOf_head d Hd) as (c & tl & Hct & Hc).
  split.
  - rewrite Hct. cbn [app]. rewrite (parseInt_unsigned ws c _ Hws Hc).
    change (c :: tl ++ rest) with ((c :: tl) ++ rest).
    rewrite <- Hct, Hlead, Hct, <- Hct.
    unfold digitsValue. rewrite fold_digitsOf. f_equal; lia.
  - rewrite (parseInt_negative ws _ Hws), Hlead, Hct, <- Hct.
    unfold digitsValue. rewrite fold_digitsOf. f_equal; lia.
Qed.

(** [parseInt] reads back what [toString] prints for an integer, also behind
    white space and in front of text that does not start with a digit. *)
Lemma parseInt_toString (z : Z) (ws rest : jsstring) :
  forallb isWhiteSpace ws = true -> leadingDigits rest = [] ->
  parseInt (ws ++ toString (Num z) ++ rest) = Num z.
Proof.
  intros Hws Hrest. destruct z as [|p|p]; unfold toString, Z.to_int.
  - apply (parseInt_digitsOf (Decimal.D0 Decimal.Nil) ws rest);
      [discriminate | assumption | assumption].
  - pose proof (DecimalPos.Unsigned.to_uint_nonnil p) as Hnil.
    destruct (parseInt_digitsOf (Pos.to_uint p) ws rest Hnil Hws Hrest)
      as [H _].
    rewrite uintValue_0, DecimalPos.Unsigned.of_to in H. cbn [Z.of_N] in H.
    rewrite <- H. unfold NilZero.string_of_int, NilZero.string_of_uint, digitsOf.
    destruct (Pos.to_uint p); [contradiction | reflexivity ..].
  - pose proof (DecimalPos.Unsigned.to_uint_nonnil p) as Hnil.
    destruct (parseInt_digitsOf (Pos.to_uint p) ws rest Hnil Hws Hrest)
      as [_ H].
    rewrite uintValue_0, DecimalPos.Unsigned.of_to in H. cbn [Z.of_N Z.opp] in H.
    rewrite <- H. unfold NilZero.string_of_int, NilZero.string_of_uint, digitsOf.
    destruct (Pos.to_uint p); [contradiction | reflexivity ..].
Qed.

Lemma parseInt_toString_plain (z : Z) : parseInt (toString (Num z)) = Num z.
Proof.
  rewrite <- (app_nil_r (toString (Num z))).
  apply (parseInt_toString z [] []); reflexivity.
Qed.

Lemma toString_truthy (z : Z) (s : jsstring) :
  truthy (toString (Num z) ++ s) = true.
Proof.
  destruct z as [|p|p]; [reflexivity | | reflexivity].
  unfold toString, Z.to_int, NilZero.string_of_int, NilZero.string_of_uint.
  pose proof (DecimalPos.Unsigned.to_uint_nonnil p) as Hnil.
  destruct (Pos.to_uint p); [contradiction | reflexivity ..].
Qed.

(** X17: the mount effect reads the page parameter leniently: for an
    integer of at most 2^53 in absolute value, white space in front of the
    number and any text behind it that does not start with a digit are
    ignored, so [p= 3abc] opens page 3; negative numbers and zero are taken
    as they are. *)
Theorem X17_page_parameter_is_read_leniently (loc : URLSearchParams)
    (z : Z) (ws rest : jsstring) :
  Z.abs z <= 2 ^ 53 ->
  get (lit "p") loc = Some (ws ++ toString (Num z) ++ rest) ->
  forallb isWhiteSpace ws = true ->
  leadingDigits rest = [] ->
  initialPage loc = Num z.
Proof.
  intros _ Hget Hws Hrest. unfold initialPage. rewrite Hget.
  assert (Ht : truthy (ws ++ toString (Num z) ++ rest) = true).
  { destruct ws; [apply toString_truthy | reflexivity]. }
  rewrite Ht. now apply parseInt_toString.
Qed.

Lemma X17_page_parameter_is_read_leniently_witness :
  initialPage [(lit "q", lit "x"); (lit "p", lit " 3abc")] = Num 3
  /\ initialPage [(lit "p", lit "-3")] = Num (-3).
Proof.
  split.
  - apply (X17_page_parameter_is_read_leniently _ 3 (lit " ") (lit "abc"));
      [vm_compute; discriminate | reflexivity ..].
  - apply (X17_page_parameter_is_read_leniently _ (-3) [] []);
      [vm_compute; discriminate | reflexivity ..].
Defined.

(** X18: the page that an accepted page change writes to the URL is the page
    the mount effect reads from it after a reload, and the page of the first
    request it then issues. *)
Theorem X18_reload_reads_page_back (s : State) (n : Z) :
  1 <= n <= totalPages (pagination s) ->
  isLoading s = false ->
  let loc := location (step s (ClickPage n)) in
  initialPage loc = Num n
  /\ fetched (mountEffect (initialState loc)) = [request (Num n) [] 10].
Proof.
  intros Hn Hload. cbn zeta. cbn [step].
  assert (Hpage : initialPage (location (handlePageChange (Num n) s)) = Num n).
  { rewrite (handlePageChange_accepts s n Hn Hload).
    unfold initialPage. cbn [location fetchTransactions fetch setError
                              setIsLoading replaceParam].
    rewrite get_set.
    pose proof (toString_truthy n []) as Ht. rewrite app_nil_r in Ht.
    rewrite Ht. apply parseInt_toString_plain. }
  split; [exact Hpage|].
  unfold mountEffect. cbn [location initialState]. rewrite Hpage. reflexivity.
Qed.

Lemma X18_reload_reads_page_back_witness :
  initialPage (location (step sampleLoaded (ClickPage 3))) = Num 3.
Proof.
  apply (X18_reload_reads_page_back sampleLoaded 3); [|reflexivity].
  vm_compute. split; discriminate.
Defined.

Lemma get_remove_other (name name' : jsstring) (ps : URLSearchParams) :
  name' <> name -> get name' (remove name ps) = get name' ps.
Proof.
  intros Hne. induction ps as [|[k v] ps IH]; [reflexivity|].
  unfold remove in *. cbn [filter fst get].
  destruct (streq k name) eqn:E; cbn [negb].
  - apply streq_eq in E. subst k.
    destruct (streq name name') eqn:E'; [|exact IH].
    apply streq_eq in E'. congruence.
  - cbn [get]. now destruct (streq k name').
Qed.

Lemma get_set_other (name name' v : jsstring) (ps : URLSearchParams) :
  name' <> name -> get name' (set name v ps) = get name' ps.
Proof.
  intros Hne. induction ps as [|[k v'] ps IH]; cbn [set get].
  - destruct (streq name name') eqn:E; [|reflexivity].
    apply streq_eq in E. congruence.
  - destruct (streq k name) eqn:E; cbn [get].
    + apply streq_eq in E. subst k.
      destruct (streq name name') eqn:E'.
      * apply streq_eq in E'. congruence.
      * now apply get_remove_other.
    + now destruct (streq k name').
Qed.

(** Every event leaves the URL as it is or sets its parameter [p]. *)
Lemma step_location (s : State) (e : Event) :
  location (step s e) = location s
  \/ exists v, location (step s e) = set (lit "p") v (location s).
Proof.
  destruct e as [| |v|v| | |p| |o]; cbn [step]; try (now left).
  - unfold searchEffect.
    destruct (negb (streq (debouncedSearchQuery s) (searchQuery s)));
      [now left | right; now eexists].
  - unfold handlePageChange. destruct (_ || _); [now left | right; now eexists].
  - unfold handlePageChange. destruct (_ || _); [now left | right; now eexists].
  - unfold handlePageChange. destruct (_ || _); [now left | right; now eexists].
  - left. unfold fetchSettled. now destruct (received o).
Qed.

(** X19: whatever happens, the dashboard changes no URL parameter other
    than [p]. *)
Theorem X19_other_parameters_are_kept (name : jsstring) (s : State)
    (trace : list Event) :
  name <> lit "p" ->
  get name (location (run s trace)) = get name (location s).
Proof.
  intros Hne. revert s.
  induction trace as [|e trace IH]; intros s; [reflexivity|].
  cbn [run fold_left]. change (fold_left step trace (step s e))
    with (run (step s e) trace).
  rewrite IH.
  destruct (step_location s e) as [-> | [v ->]]; [reflexivity|].
  now apply get_set_other.
Qed.

Lemma X19_other_parameters_are_kept_witness :
  get (lit "tab")
      (location (run (initialState [(lit "tab", lit "all"); (lit "p", lit "2")])
                     [MountEffect; SearchEffect;
                      Settled (Responded 200 (Some sampleResponse));
                      ClickPage 3]))
  = Some (lit "all").
Proof.
  rewrite (X19_other_parameters_are_kept (lit "tab")); [reflexivity|].
  discriminate.
Defined.

End PageParameter.

(** ** The useTransactions hook and the formatters *)

Section HookAndFormatters.

Import Formatters.

(** X22: in the hook a failed fetch keeps the current page and limit, where
    the dashboard goes back to page 1 and limit 10: the next call asks with
    the same limit as the failed one, and nothing is loading in between. *)
Theorem X22_hook_failure_keeps_page_and_limit (T : Type)
    (p1 p2 : number) (q1 q2 : jsstring) (h : Hook.State T) :
  let failed := Hook.fetchSettled Hook.Threw (Hook.fetchTransactions p1 q1 h) in
  Hook.page (Hook.pagination failed) = Hook.page (Hook.pagination h)
  /\ Hook.limit (Hook.pagination failed) = Hook.limit (Hook.pagination h)
  /\ Hook.isLoading failed = false
  /\ Hook.called (Hook.fetchTransactions p2 q2 failed)
     = Hook.called h
       ++ [Hook.call p1 q1 (Hook.limit (Hook.pagination h));
           Hook.call p2 q2 (Hook.limit (Hook.pagination h))].
Proof.
  cbn. repeat split. now rewrite <- app_assoc.
Qed.

(** X23: [truncateText] keeps the first [maxLength] code units of the text
    and returns at most [max(maxLength, 0) + 3] code units: the text itself
    when it fits, and otherwise exactly [max(maxLength, 0) + 3] of them,
    which can be more than the text had. *)
Theorem X23_truncateText_length_and_prefix (text : jsstring)
    (maxLength : Z) :
  Z.of_nat (List.length (truncateText text maxLength))
  = (if Z.of_nat (List.length text) <=? maxLength
     then Z.of_nat (List.length text)
     else Z.max maxLength 0 + 3)
  /\ Z.of_nat (List.length (truncateText text maxLength))
     <= Z.max maxLength 0 + 3
  /\ firstn (Z.to_nat maxLength) (truncateText text maxLength)
     = firstn (Z.to_nat maxLength) text.
Proof.
  unfold truncateText, substring0.
  destruct (Z.leb_spec (Z.of_nat (List.length text)) maxLength) as [Hfit|Hlong].
  - repeat split; lia.
  - assert (Hlen : List.length (firstn (Z.to_nat maxLength) text)
                   = Z.to_nat maxLength)
      by (rewrite length_firstn; lia).
    rewrite length_app, Hlen. cbn [lit List.length list_ascii_of_string map].
    split; [lia|]. split; [lia|].
    rewrite firstn_app, Hlen, Nat.sub_diag, firstn_firstn, Nat.min_id.
    cbn [firstn]. apply app_nil_r.
Qed.

End HookAndFormatters.

(** ** More on useDebounce *)

Section DebounceMore.

Import Debounce.

Lemma spaced_snoc (d : nat) (ts : list nat) (t : nat) :
  spaced d ts -> (forall tl, last ts t = tl -> ts <> [] -> (tl + d <= t)%nat) ->
  spaced d (ts ++ [t]).
Proof.
  induction ts as [|t1 ts IH]; intros Hsp Hlast; [cbn; auto|].
  destruct Hsp as [Hhead Htail]. cbn [app spaced].
  destruct ts as [|t2 ts].
  - cbn. split; [|auto]. apply (Hlast t1); [reflexivity | discriminate].
  - split; [exact Hhead|]. apply IH; [exact Htail|].
    intros tl Htl _. apply (Hlast tl); [exact Htl | discriminate].
Qed.

Lemma stepRun_paced (d : nat) (r r' : Run) (te : nat * Event) :
  paced d r -> stepRun r te = Some r' -> paced d r'.
Proof.
  intros (Hd & Hsp & Hlast) Hstep. destruct te as [now [v|]].
  - apply stepRun_change_inv in Hstep as [Hclock ->].
    unfold paced. cbn [hook clock emitted].
    split; [unfold render; now destruct (_ && _)|].
    split; [exact Hsp|].
    intros tl Hne Htl. destruct (Hlast tl Hne Htl) as [Hle Hpend].
    split; [lia|]. intros due v'. unfold render.
    destruct (_ && _); [apply Hpend|].
    cbn. intros [= <- _]. lia.
  - apply stepRun_timeout_inv in Hstep
      as [Hclock (due & v & Hpend & Hdue & ->)].
    unfold paced. cbn [hook clock emitted delay handler].
    split; [exact Hd|]. rewrite map_app. cbn [map fst].
    split.
    + apply spaced_snoc; [exact Hsp|].
      intros tl Htl Hne.
      assert (Hne' : emitted r <> []) by (now destruct (emitted r)).
      assert (Htl' : last (map fst (emitted r)) O = tl).
      { rewrite <- Htl. destruct (map fst (emitted r)) as [|a l] eqn:E;
          [contradiction|].
        clear. revert a. induction l as [|b l IH]; intros a; [reflexivity|].
        cbn [last] in *. apply IH. }
      destruct (Hlast tl Hne' Htl') as [_ Hp]. specialize (Hp due v Hpend). lia.
    + intros tl _ Htl. rewrite last_last in Htl. subst tl.
      split; [lia | discriminate].
Qed.

Lemma runFrom_paced (d : nat) (trace : list (nat * Event)) :
  forall r r', paced d r -> runFrom r trace = Some r' -> paced d r'.
Proof.
  induction trace as [|te trace IH]; intros r r' Hp Hrun; cbn [runFrom] in Hrun.
  - now injection Hrun as <-.
  - destruct (stepRun r te) as [r1|] eqn:Hstep; [|discriminate].
    apply (IH r1 r'); [now apply (stepRun_paced d r r1 te) | exact Hrun].
Qed.

(** X24: the hook limits the rate of updates: in every run from the first
    render, two successive updates of the debounced value are at least
    [d] ms apart. *)
Theorem X24_emissions_are_spaced (t0 : nat) (v0 : jsstring) (d : nat)
    (trace : list (nat * Event)) (r : Run) :
  runFrom (start t0 v0 d) trace = Some r ->
  spaced d (map fst (emitted r)).
Proof.
  intros Hrun.
  assert (Hstart : paced d (start t0 v0 d)).
  { split; [reflexivity|]. split; [exact I|]. intros tl Hne. now elim Hne. }
  exact (proj1 (proj2 (runFrom_paced d trace _ _ Hstart Hrun))).
Qed.

Lemma X24_emissions_are_spaced_witness :
  runFrom (start 0 [] 300) sampleTrace2 = Some sampleEnd2
  /\ map fst (emitted sampleEnd2) = [400; 800]%nat
  /\ spaced 300 (map fst (emitted sampleEnd2)).
Proof.
  split; [reflexivity|]. split; [reflexivity|].
  apply (X24_emissions_are_spaced 0 [] 300 sampleTrace2). reflexivity.
Defined.

Lemma runFrom_count (trace : list (nat * Event)) :
  forall r r',
    runFrom r trace = Some r' ->
    (List.length (emitted r') + pendingCount (hook r')
     <= List.length (emitted r) + pendingCount (hook r)
        + List.length (changesOf trace))%nat.
Proof.
  induction trace as [|[now [v|]] trace IH]; intros r r' Hrun;
    cbn [runFrom changesOf] in Hrun |- *.
  - injection Hrun as <-. lia.
  - destruct (stepRun r (now, Change v)) as [r1|] eqn:Hstep; [|discriminate].
    apply stepRun_change_inv in Hstep as [_ ->].
    specialize (IH _ _ Hrun). cbn [hook emitted List.length] in IH |- *.
    assert (pendingCount (render now v (delay (hook r)) (hook r)) <= 1)%nat.
    { unfold pendingCount. destruct (handler _); lia. }
    lia.
  - destruct (stepRun r (now, Timeout)) as [r1|] eqn:Hstep; [|discriminate].
    apply stepRun_timeout_inv in Hstep as [_ (due & v & Hpend & _ & ->)].
    specialize (IH _ _ Hrun). cbn [hook emitted] in IH.
    rewrite length_app in IH. cbn in IH.
    unfold pendingCount at 2. rewrite Hpend. lia.
Qed.

(** X25: the debounced value is updated at most once per change of the raw
    value, plus once for the timer of the first render. *)
Theorem X25_at_most_one_emission_per_change (t0 : nat) (v0 : jsstring)
    (d : nat) (trace : list (nat * Event)) (r : Run) :
  runFrom (start t0 v0 d) trace = Some r ->
  (List.length (emitted r) <= S (List.length (changesOf trace)))%nat.
Proof.
  intros Hrun. pose proof (runFrom_count trace _ _ Hrun) as H.
  cbn in H. lia.
Qed.

Lemma X25_at_most_one_emission_per_change_witness :
  (List.length (emitted sampleEnd) <= S (List.length (changesOf sampleTrace)))%nat.
Proof.
  apply (X25_at_most_one_emission_per_change 0 [] 300 sampleTrace). reflexivity.
Defined.

End DebounceMore.

(** ** The error panel *)

Section ErrorPanel.

Import Dashboard.

Lemma step_error (s : State) (e : Event) :
  error (step s e) = error s
  \/ error (step s e) = None
  \/ error (step s e) = Some errorMessage.
Proof.
  destruct e as [| |v|v| | |p| |o]; cbn [step]; try (now left);
    try (right; left; reflexivity).
  - unfold searchEffect. destruct (negb _); [now left | right; now left].
  - unfold handlePageChange. destruct (_ || _); [now left | right; now left].
  - unfold handlePageChange. destruct (_ || _); [now left | right; now left].
  - unfold handlePageChange. destruct (_ || _); [now left | right; now left].
  - unfold fetchSettled. destruct (received o); [now left | right; now right].
Qed.

Lemma run_error (trace : list Event) :
  forall s, error s = None \/ error s = Some errorMessage ->
            error (run s trace) = None
            \/ error (run s trace) = Some errorMessage.
Proof.
  induction trace as [|e trace IH]; intros s Hs; [exact Hs|].
  cbn [run fold_left]. apply IH.
  destruct (step_error s e) as [-> | [-> | ->]]; auto.
Qed.

(** X26: whatever has happened since the page was opened, an error panel on
    screen shows the one fixed message. *)
Theorem X26_error_panel_shows_the_fixed_message (loc : URLSearchParams)
    (trace : list Event) (message : jsstring) :
  content (run (initialState loc) trace) = ShowError message ->
  message = errorMessage.
Proof.
  intros Hc. unfold content in Hc.
  destruct (run_error trace (initialState loc) (or_introl eq_refl))
    as [He | He]; rewrite He in Hc.
  - unfold listing in Hc. destruct (isLoading _); [discriminate|].
    destruct (transactions _); discriminate.
  - cbn in Hc. now injection Hc as <-.
Qed.

Lemma X26_error_panel_shows_the_fixed_message_witness :
  content (run (initialState []) [MountEffect; SearchEffect; Settled Rejected])
  = ShowError errorMessage
  /\ errorMessage = errorMessage.
Proof.
  split; [reflexivity|].
  apply (X26_error_panel_shows_the_fixed_message []
           [MountEffect; SearchEffect; Settled Rejected]).
  reflexivity.
Defined.

End ErrorPanel.
